(** * spendwisely: the FastAPI backend [server.py], embedded and verified

    The server keeps three things on disk (the holdings file, the token
    configuration of the [unfold] tool, the SQLite database that tool
    fills) and talks to two HTTP services and one subprocess.  The
    embedding keeps that shape:

    - Python values are the inductive [pyval]; exceptions are values of
      [exn], and a call either returns or raises ([result]);
    - the disk and the log of outside calls are the [world]; every endpoint
      is a computation in the monad [M world];
    - what CPython and third-party packages do ([json], [yaml],
      [requests], [sqlite3], [subprocess], [float(str)]) is the record
      [runtime], over which every theorem quantifies;
    - floats are the kernel's binary64 numbers, so [units * nav],
      [total_value += value] and [round(x, 2)] compute. *)

From Stdlib Require Import ZArith List String Ascii Bool Lia.
From Stdlib Require Import Sorted Permutation.
From Stdlib Require Import PrimFloat SpecFloat FloatOps.
Import ListNotations.

Local Open Scope string_scope.
Local Open Scope Z_scope.
Local Open Scope list_scope.

(** ** Python values and exceptions *)

(** What [json.load], [yaml.safe_load] and [sqlite3] hand to the server.
    A [dict] keeps its insertion order, so it is an association list. *)
#[local] Set Warnings "-register-all".
Inductive pyval : Type :=
| PyNone
| PyBool (b : bool)
| PyInt (i : Z)
| PyFloat (x : float)
| PyStr (s : string)
| PyList (items : list pyval)
| PyDict (entries : list (string * pyval)).

(** The exceptions the server can meet.  [HTTPException status detail about]
    is FastAPI's; its detail text is [detail] followed by [str(about)] when
    the source formats a caught exception into it. *)
Inductive exn : Type :=
| TypeError
| KeyError
| IndexError
| ValueError
| OverflowError
| AttributeError
| JSONDecodeError
| YAMLError
| RequestException
| HTTPError (status : Z)
| OSError
| CalledProcessError (returncode : Z)
| OperationalError
| DatabaseError
| HTTPException (status_code : Z) (detail : string) (about : option exn).

Inductive result (A : Type) : Type :=
| Ok (a : A)
| Raise (e : exn).

Arguments Ok {A} a.
Arguments Raise {A} e.

Definition raises {A : Type} (r : result A) : bool :=
  match r with Ok _ => false | Raise _ => true end.

(** ** A state-and-exception monad

    A Python statement changes the state and then either goes on or
    raises; what it changed before raising stays changed. *)
Definition M (S A : Type) : Type := S -> result A * S.

Definition ret {S A : Type} (a : A) : M S A := fun s => (Ok a, s).

Definition raise {S A : Type} (e : exn) : M S A := fun s => (Raise e, s).

Definition bind {S A B : Type} (m : M S A) (k : A -> M S B) : M S B :=
  fun s =>
    match m s with
    | (Ok a, s') => k a s'
    | (Raise e, s') => (Raise e, s')
    end.

Definition lift {S A : Type} (r : result A) : M S A := fun s => (r, s).

Definition gets {S A : Type} (f : S -> A) : M S A := fun s => (Ok (f s), s).

Definition modify {S : Type} (f : S -> S) : M S unit := fun s => (Ok tt, f s).

(** [try: body except Exception as e: handler e] *)
Definition try_except {S A : Type} (body : M S A) (handler : exn -> M S A) : M S A :=
  fun s =>
    match body s with
    | (Ok a, s') => (Ok a, s')
    | (Raise e, s') => handler e s'
    end.

(** [try: body finally: cleanup] *)
Definition try_finally {S A : Type} (body : M S A) (cleanup : M S unit) : M S A :=
  fun s =>
    match body s with
    | (r, s') =>
        match cleanup s' with
        | (Ok _, s'') => (r, s'')
        | (Raise e, s'') => (Raise e, s'')
        end
    end.

Declare Scope py_scope.
Delimit Scope py_scope with py.
Notation "x <- m ;; k" := (bind m (fun x => k))
  (at level 61, m at next level, right associativity) : py_scope.
Notation "m ;;; k" := (bind m (fun _ => k))
  (at level 61, right associativity) : py_scope.
Local Open Scope py_scope.

(** The same on bare results, for expressions that touch no state. *)
Definition and_then {A B : Type} (r : result A) (k : A -> result B) : result B :=
  match r with
  | Ok a => k a
  | Raise e => Raise e
  end.

Notation "'let!' x := r 'in' k" := (and_then r (fun x => k))
  (at level 61, x name, r at next level, right associativity) : py_scope.

(** ** The builtins the server applies to such values *)

(** [bool(v)], as [if v:] and [a and b] use it. *)
Definition py_truthy (v : pyval) : bool :=
  match v with
  | PyNone => false
  | PyBool b => b
  | PyInt i => negb (i =? 0)
  | PyFloat x => negb (PrimFloat.eqb x PrimFloat.zero)
  | PyStr s => negb (String.eqb s EmptyString)
  | PyList items => match items with [] => false | _ :: _ => true end
  | PyDict entries => match entries with [] => false | _ :: _ => true end
  end.

Fixpoint dict_lookup (key : string) (entries : list (string * pyval)) : option pyval :=
  match entries with
  | [] => None
  | (k, v) :: rest => if String.eqb key k then Some v else dict_lookup key rest
  end.

(** [seq[i]] on a sequence of [n] elements: a negative index counts from
    the end, anything outside is an [IndexError]. *)
Definition py_index {A : Type} (xs : list A) (i : Z) : result A :=
  let n := Z.of_nat (List.length xs) in
  let j := if i <? 0 then i + n else i in
  if (j <? 0) || (n <=? j) then Raise IndexError
  else match nth_error xs (Z.to_nat j) with
       | Some x => Ok x
       | None => Raise IndexError
       end.

Definition chars (s : string) : list pyval :=
  List.map (fun c => PyStr (String c EmptyString)) (list_ascii_of_string s).

(** [v[key]] *)
Definition py_getitem (v key : pyval) : result pyval :=
  match v with
  | PyDict entries =>
      match key with
      | PyStr k => match dict_lookup k entries with
                   | Some x => Ok x
                   | None => Raise KeyError
                   end
      | PyList _ | PyDict _ => Raise TypeError
      | _ => Raise KeyError
      end
  | PyList items =>
      match key with
      | PyInt i => py_index items i
      | PyBool b => py_index items (if b then 1 else 0)
      | _ => Raise TypeError
      end
  | PyStr s =>
      match key with
      | PyInt i => py_index (chars s) i
      | PyBool b => py_index (chars s) (if b then 1 else 0)
      | _ => Raise TypeError
      end
  | _ => Raise TypeError
  end.

(** [v.get(key, default)]: a method of [dict] only. *)
Definition py_get (v : pyval) (key : string) (default : pyval) : result pyval :=
  match v with
  | PyDict entries =>
      match dict_lookup key entries with
      | Some x => Ok x
      | None => Ok default
      end
  | _ => Raise AttributeError
  end.

Fixpoint is_substring (needle hay : string) : bool :=
  String.prefix needle hay ||
  match hay with
  | EmptyString => false
  | String _ rest => is_substring needle rest
  end.

(** [key in v] for a [str] key: a key of a [dict], an element of a [list],
    a substring of a [str]. *)
Definition py_contains_str (key : string) (v : pyval) : result bool :=
  match v with
  | PyDict entries =>
      Ok (match dict_lookup key entries with Some _ => true | None => false end)
  | PyList items =>
      Ok (existsb (fun x => match x with
                            | PyStr s => String.eqb key s
                            | _ => false
                            end) items)
  | PyStr s => Ok (is_substring key s)
  | _ => Raise TypeError
  end.

(** [len(v)] *)
Definition py_len (v : pyval) : result Z :=
  match v with
  | PyList items => Ok (Z.of_nat (List.length items))
  | PyDict entries => Ok (Z.of_nat (List.length entries))
  | PyStr s => Ok (Z.of_nat (String.length s))
  | _ => Raise TypeError
  end.

(** What [for x in v] walks over. *)
Definition py_iter (v : pyval) : result (list pyval) :=
  match v with
  | PyList items => Ok items
  | PyDict entries => Ok (List.map (fun kv => PyStr (fst kv)) entries)
  | PyStr s => Ok (chars s)
  | _ => Raise TypeError
  end.

(** ** Floats

    [float] is binary64, as in CPython; products and sums are the
    kernel's.  Conversion from [int] and [round(x, 2)] are computed on the
    exact value. *)

(** [float(i)] for an [int]: the nearest double, ties to even;
    [OverflowError] when that is beyond the largest double. *)
Definition float_of_Z (i : Z) : result float :=
  match binary_normalize prec emax i 0 false with
  | S754_infinity _ => Raise OverflowError
  | sf => Ok (SF2Prim sf)
  end.

(** [num / den] rounded to the nearest integer, ties to the even one. *)
Definition round_half_even (num den : Z) : Z :=
  let q := num / den in
  let r := num mod den in
  match 2 * r ?= den with
  | Lt => q
  | Gt => q + 1
  | Eq => if Z.even q then q else q + 1
  end.

(** [round(x, 2)] for a float: the exact value of [x] is rounded to two
    decimals (ties to even), and the double nearest to that decimal is the
    result; infinities, NaN and integral values come back unchanged. *)
Definition round2 (x : float) : float :=
  match Prim2SF x with
  | S754_finite s m e =>
      if 0 <=? e then x
      else
        match round_half_even (100 * Zpos m) (2 ^ (- e)) with
        | Z0 => SF2Prim (S754_zero s)
        | n =>
            let '(mz, ez, lz) := SFdiv_core_binary prec emax n 0 100 0 in
            SF2Prim (binary_round_aux prec emax s mz ez lz)
        end
  | _ => x
  end.

(** [round(v, 2)]: an [int] rounds to itself and stays an [int]. *)
Definition py_round2 (v : pyval) : result pyval :=
  match v with
  | PyInt i => Ok (PyInt i)
  | PyBool b => Ok (PyInt (if b then 1 else 0))
  | PyFloat x => Ok (PyFloat (round2 x))
  | _ => Raise TypeError
  end.

(** [a + b] *)
Definition py_add (a b : pyval) : result pyval :=
  let as_int (v : pyval) : option Z :=
    match v with
    | PyInt i => Some i
    | PyBool c => Some (if c then 1 else 0)
    | _ => None
    end in
  match a, b with
  | PyFloat x, PyFloat y => Ok (PyFloat (PrimFloat.add x y))
  | PyFloat x, _ =>
      match as_int b with
      | Some j => let! y := float_of_Z j in Ok (PyFloat (PrimFloat.add x y))
      | None => Raise TypeError
      end
  | _, PyFloat y =>
      match as_int a with
      | Some i => let! x := float_of_Z i in Ok (PyFloat (PrimFloat.add x y))
      | None => Raise TypeError
      end
  | PyStr s, PyStr t => Ok (PyStr (s ++ t)%string)
  | PyList l, PyList r => Ok (PyList (l ++ r))
  | _, _ =>
      match as_int a, as_int b with
      | Some i, Some j => Ok (PyInt (i + j))
      | _, _ => Raise TypeError
      end
  end.

(** [a == b].  An [int] equals a float when the float's exact value is
    that integer; dictionaries are equal when they map the same keys to
    equal values, in whatever order. *)
Definition int_eq_float (i : Z) (x : float) : bool :=
  match Prim2SF x with
  | S754_zero _ => i =? 0
  | S754_finite s m e =>
      let sm := if s then Zneg m else Zpos m in
      if 0 <=? e then i =? sm * 2 ^ e else i * 2 ^ (- e) =? sm
  | _ => false
  end.

Fixpoint py_eqb (a b : pyval) {struct a} : bool :=
  match a, b with
  | PyNone, PyNone => true
  | PyStr s, PyStr t => String.eqb s t
  | PyBool c, PyBool d => Bool.eqb c d
  | PyBool c, PyInt j => (if c then 1 else 0) =? j
  | PyBool c, PyFloat y => int_eq_float (if c then 1 else 0) y
  | PyInt i, PyBool d => i =? (if d then 1 else 0)
  | PyInt i, PyInt j => i =? j
  | PyInt i, PyFloat y => int_eq_float i y
  | PyFloat x, PyBool d => int_eq_float (if d then 1 else 0) x
  | PyFloat x, PyInt j => int_eq_float j x
  | PyFloat x, PyFloat y => PrimFloat.eqb x y
  | PyList l, PyList r =>
      (fix pairwise (l : list pyval) (r : list pyval) : bool :=
         match l, r with
         | [], [] => true
         | x :: l', y :: r' => py_eqb x y && pairwise l' r'
         | _, _ => false
         end) l r
  | PyDict d, PyDict e =>
      Nat.eqb (List.length d) (List.length e) &&
      (fix every (d : list (string * pyval)) : bool :=
         match d with
         | [] => true
         | (k, v) :: d' =>
             match dict_lookup k e with
             | Some v' => py_eqb v v'
             | None => false
             end && every d'
         end) d
  | _, _ => false
  end.

(** ** The disk, the outside world, and the runtime *)

(** One row of [SELECT uuid, amount, current_balance, timestamp, type,
    account, merchant]: [row[0]] is [col_uuid], ..., [row[6]] is
    [col_merchant]. *)
Record row : Type := mkRow {
  col_uuid : pyval;
  col_amount : pyval;
  col_current_balance : pyval;
  col_timestamp : pyval;
  col_type : pyval;
  col_account : pyval;
  col_merchant : pyval
}.

(** What the database holds under the name [transactions]: nothing, a
    table the [SELECT] of the seven columns fails on, or rows. *)
Inductive transactions_table : Type :=
| NoTable
| OtherColumns
| Rows (stored : list row).

(** What is at [DB_PATH].  [os.path.exists] is true of everything but
    [DbAbsent].  [sqlite3.connect] raises [OperationalError] on a path it
    cannot open (a directory, a file the process may not read); on a file
    that is no database it succeeds and the first statement raises
    [DatabaseError]. *)
Inductive db_node : Type :=
| DbAbsent
| DbUnopenable
| DbNotADatabase
| Db (transactions : transactions_table).

(** The three paths the server reads and writes.  A text file is [None]
    when the path does not exist, [Some text] otherwise.  Both text files
    are read inside a [try] and written whole.  A path that cannot be
    opened for writing is not among these states: what is proved of
    [save_holdings] and [save_unfold_config] is proved of a write that
    completes. *)
Record disk : Type := mkDisk {
  holdings_json : option string;
  unfold_config_yaml : option string;
  db_sqlite : db_node
}.

(** What [requests.get] and [requests.post] come back with: no response at
    all (the call raises), or a status code and a body. *)
Inductive http_reply : Type :=
| NoReply
| Reply (status_code : Z) (text : string).

(** How a [subprocess.run] ends: the program could not be started, or it
    ran and exited with a status. *)
Inductive completed : Type :=
| NotStarted
| Exited (returncode : Z).

(** Calls that leave the process, in the order they happen. *)
Inductive event : Type :=
| Ran (argv : list string)
| Got (url : string)
| Posted (url : string) (payload : pyval)
| PrintedFetchError (code : pyval) (e : exn)
| PrintedDbError (e : exn).

Record world : Type := mkWorld {
  files : disk;
  log : list event
}.

(** What the interpreter, its packages and the network do.  Nothing about
    them is assumed: each theorem holds for every [runtime], or says which
    behaviour it needs.  The two dumpers are total: every [pyval] is a
    value they can write. *)
Record runtime : Type := mkRuntime {
  (** [json.loads]: [None] when the text does not parse. *)
  json_loads : string -> option pyval;
  json_dumps : pyval -> string;
  (** [yaml.safe_load]: [None] when the text does not parse. *)
  yaml_safe_load : string -> option pyval;
  yaml_dump : pyval -> string;
  (** [float(s)] for a [str]: [None] when it raises [ValueError]. *)
  float_of_str : string -> option float;
  (** [format(v)] for a value that is no [str]. *)
  format_value : pyval -> string;
  (** [os.urandom(n)] *)
  urandom : nat -> list Byte.byte;
  requests_get : string -> http_reply;
  requests_post : string -> pyval -> http_reply;
  (** A run of the [unfold] binary on the disk it finds. *)
  unfold_binary : list string -> disk -> completed * disk;
  (** SQLite's order on stored values: [sqlite_le a b] when [a] sorts
      no later than [b] under [ORDER BY]. *)
  sqlite_le : pyval -> pyval -> bool
}.

(** *** Configuration *)

Definition UNFOLD_BINARY : string := "./unfold/unfold".
Definition UNFOLD_CONFIG : string := "./unfold_config.yaml".
Definition DB_PATH : string := "./unfold/db.sqlite".
Definition HOLDINGS_FILE : string := "./holdings.json".

(** ** The server *)

Section Server.

Variable R : runtime.

(** *** Primitives over the world *)

Definition emit (ev : event) : M world unit :=
  modify (fun w => mkWorld (files w) (log w ++ [ev])).

Definition update_disk (f : disk -> disk) : M world unit :=
  modify (fun w => mkWorld (f (files w)) (log w)).

(** [os.path.exists(path)] for a text file *)
Definition path_exists (node : disk -> option string) : M world bool :=
  gets (fun w => match node (files w) with Some _ => true | None => false end).

(** [with open(path, "r") as f: f.read()] *)
Definition read_text (node : disk -> option string) : M world string :=
  fun w =>
    match node (files w) with
    | Some text => (Ok text, w)
    | None => (Raise OSError, w)
    end.

Definition json_load (text : string) : result pyval :=
  match json_loads R text with
  | Some v => Ok v
  | None => Raise JSONDecodeError
  end.

Definition yaml_load (text : string) : result pyval :=
  match yaml_safe_load R text with
  | Some v => Ok v
  | None => Raise YAMLError
  end.

(** [float(v)] *)
Definition py_float (v : pyval) : result float :=
  match v with
  | PyFloat x => Ok x
  | PyInt i => float_of_Z i
  | PyBool b => Ok (if b then PrimFloat.one else PrimFloat.zero)
  | PyStr s =>
      match float_of_str R s with
      | Some x => Ok x
      | None => Raise ValueError
      end
  | _ => Raise TypeError
  end.

(** [f"{v}"] *)
Definition fmt (v : pyval) : string :=
  match v with
  | PyStr s => s
  | _ => format_value R v
  end.

Definition hex_digit (n : nat) : ascii :=
  nth n (list_ascii_of_string "0123456789abcdef") "0"%char.

(** [bytes.hex()] *)
Definition hex (bs : list Byte.byte) : string :=
  string_of_list_ascii
    (flat_map (fun b => let n := Byte.to_nat b in
                        [hex_digit (Nat.div n 16); hex_digit (Nat.modulo n 16)]) bs).

(** [requests.get(url)] *)
Definition http_get (url : string) : M world (Z * string) :=
  emit (Got url) ;;;
  match requests_get R url with
  | NoReply => raise RequestException
  | Reply code text => ret (code, text)
  end.

(** [requests.post(url, json=payload)] *)
Definition http_post (url : string) (payload : pyval) : M world (Z * string) :=
  emit (Posted url payload) ;;;
  match requests_post R url payload with
  | NoReply => raise RequestException
  | Reply code text => ret (code, text)
  end.

(** [res.raise_for_status()] *)
Definition raise_for_status (res : Z * string) : result unit :=
  if (400 <=? fst res) && (fst res <? 600) then Raise (HTTPError (fst res)) else Ok tt.

(** [res.json()] *)
Definition response_json (res : Z * string) : result pyval := json_load (snd res).

(** [subprocess.run(argv, check=True)] *)
Definition subprocess_run (argv : list string) : M world unit :=
  fun w =>
    let '(how, after) := unfold_binary R argv (files w) in
    let ran := log w ++ [Ran argv] in
    match how with
    | NotStarted => (Raise OSError, mkWorld (files w) ran)
    | Exited code =>
        if code =? 0 then (Ok tt, mkWorld after ran)
        else (Raise (CalledProcessError code), mkWorld after ran)
    end.

(** *** Helpers (server.py, lines 31-66) *)

Definition load_holdings : M world pyval :=
  present <- path_exists holdings_json ;;
  if (present : bool) then
    try_except
      (text <- read_text holdings_json ;; lift (json_load text))
      (fun _ => ret (PyList []))
  else ret (PyList []).

Definition save_holdings (holdings : pyval) : M world unit :=
  update_disk (fun d => mkDisk (Some (json_dumps R holdings))
                               (unfold_config_yaml d) (db_sqlite d)).

Definition unfold_config (access_token refresh_token uuid : pyval) : pyval :=
  PyDict [ ("token", PyDict [("access", access_token); ("refresh", refresh_token)]);
           ("fold_user", PyDict [("uuid", uuid)]);
           ("device_hash", PyStr ("python-client-" ++ hex (urandom R 4))%string) ].

Definition save_unfold_config (access_token refresh_token uuid : pyval) : M world unit :=
  let config := unfold_config access_token refresh_token uuid in
  update_disk (fun d => mkDisk (holdings_json d)
                               (Some (yaml_dump R config)) (db_sqlite d)).

Definition get_unfold_token : M world pyval :=
  present <- path_exists unfold_config_yaml ;;
  if (present : bool) then
    try_except
      (text <- read_text unfold_config_yaml ;;
       config <- lift (yaml_load text) ;;
       token <- lift (py_get config "token" (PyDict [])) ;;
       lift (py_get token "access" PyNone))
      (fun _ => ret PyNone)
  else ret PyNone.

(** *** Models (lines 69-84) *)

Record Holding : Type := mkHolding {
  scheme_code : string;
  units : float
}.

Record LoginRequest : Type := mkLoginRequest {
  login_phone : string
}.

Record VerifyRequest : Type := mkVerifyRequest {
  phone : string;
  otp : string
}.

(** *** 1. Auth (lines 89-133) *)

(** [phone] with [+91] put before a number that does not start with [+] *)
Definition with_country_code (number : string) : string :=
  if String.prefix "+" number then number else ("+91" ++ number)%string.

Definition fold_login (req : LoginRequest) : M world pyval :=
  let url := "https://api.fold.money/v1/auth/otp" in
  let phone := with_country_code (login_phone req) in
  let payload := PyDict [("phone", PyStr phone); ("channel", PyStr "sms")] in
  try_except
    (res <- http_post url payload ;;
     lift (raise_for_status res) ;;;
     ret (PyDict [("status", PyStr "otp_sent")]))
    (fun e => raise (HTTPException 400 "" (Some e))).

Definition fold_verify (req : VerifyRequest) : M world pyval :=
  let url := "https://api.fold.money/v1/auth/otp/verify" in
  let phone := with_country_code (phone req) in
  let payload := PyDict [("phone", PyStr phone); ("otp", PyStr (otp req))] in
  try_except
    (res <- http_post url payload ;;
     lift (raise_for_status res) ;;;
     body <- lift (response_json res) ;;
     data <- lift (py_get body "data" (PyDict [])) ;;
     access <- lift (py_get data "access_token" PyNone) ;;
     refresh <- lift (py_get data "refresh_token" PyNone) ;;
     user_meta <- lift (py_get data "user_meta" (PyDict [])) ;;
     uuid <- lift (py_get user_meta "uuid" PyNone) ;;
     if py_truthy access && py_truthy refresh then
       save_unfold_config access refresh uuid ;;;
       ret (PyDict [("status", PyStr "success")])
     else
       raise (HTTPException 400 "Invalid response from Fold" None))
    (fun e => raise (HTTPException 400 "Verification failed: " (Some e))).

Definition fold_status : M world pyval :=
  token <- get_unfold_token ;;
  ret (PyDict [("logged_in",
                PyBool (match token with PyNone => false | _ => true end))]).

(** *** 2. Holdings management (lines 136-144) *)

Definition get_holdings_api : M world pyval := load_holdings.

Definition set_holdings_api (holdings : list Holding) : M world pyval :=
  let data := List.map (fun h => PyDict [("scheme_code", PyStr (scheme_code h));
                                         ("units", PyFloat (units h))]) holdings in
  save_holdings (PyList data) ;;;
  ret (PyDict [("status", PyStr "updated")]).

(** *** 3. Transactions (lines 147-198) *)

Definition unfold_argv : list string :=
  [UNFOLD_BINARY; "transactions"; "--db"; "--config"; UNFOLD_CONFIG].

(** [os.path.exists(DB_PATH)] *)
Definition db_exists : M world bool :=
  gets (fun w => match db_sqlite (files w) with DbAbsent => false | _ => true end).

(** [sqlite3.connect(DB_PATH)]; on a path with nothing at it SQLite makes
    an empty database. *)
Definition sqlite3_connect : M world unit :=
  fun w =>
    match db_sqlite (files w) with
    | DbUnopenable => (Raise OperationalError, w)
    | DbAbsent =>
        (Ok tt, mkWorld (mkDisk (holdings_json (files w))
                                (unfold_config_yaml (files w)) (Db NoTable))
                        (log w))
    | _ => (Ok tt, w)
    end.

(** [cursor.execute("SELECT name FROM sqlite_master WHERE type='table' AND
    name='transactions'")] followed by [cursor.fetchone()] *)
Definition fetch_table_name : M world (option pyval) :=
  fun w =>
    match db_sqlite (files w) with
    | Db NoTable => (Ok None, w)
    | Db _ => (Ok (Some (PyStr "transactions")), w)
    | DbNotADatabase => (Raise DatabaseError, w)
    | _ => (Raise OperationalError, w)
    end.

(** [ORDER BY timestamp DESC]: rows with the larger timestamp first.  Rows
    with equal timestamps keep their stored order here; SQLite fixes no
    order among them, and the theorems on what is returned ask for an
    order by timestamp only. *)
Fixpoint insert_desc (r : row) (sorted : list row) : list row :=
  match sorted with
  | [] => [r]
  | x :: rest =>
      if sqlite_le R (col_timestamp x) (col_timestamp r) then r :: x :: rest
      else x :: insert_desc r rest
  end.

Definition order_by_timestamp_desc (rs : list row) : list row :=
  fold_right insert_desc [] rs.

(** [cursor.execute("SELECT uuid, amount, current_balance, timestamp, type,
    account, merchant FROM transactions ORDER BY timestamp DESC LIMIT 50")]
    followed by [cursor.fetchall()] *)
Definition fetch_recent_rows : M world (list row) :=
  fun w =>
    match db_sqlite (files w) with
    | Db (Rows stored) => (Ok (firstn 50 (order_by_timestamp_desc stored)), w)
    | Db _ => (Raise OperationalError, w)
    | DbNotADatabase => (Raise DatabaseError, w)
    | _ => (Raise OperationalError, w)
    end.

(** The dictionary built from one row (lines 174-182) *)
Definition transaction_of_row (r : row) : pyval :=
  PyDict [ ("uuid", col_uuid r);
           ("amount", col_amount r);
           ("current_balance", col_current_balance r);
           ("timestamp", col_timestamp r);
           ("type", col_type r);
           ("account", col_account r);
           ("merchant", col_merchant r) ].

Definition get_transactions : M world pyval :=
  missing <- (e <- db_exists ;; ret (negb e)) ;;
  outer <- (if (missing : bool) then ret true
            else token <- get_unfold_token ;; ret (py_truthy token)) ;;
  (if (outer : bool) then
     still_missing <- (e <- db_exists ;; ret (negb e)) ;;
     if (still_missing : bool) then
       try_except (subprocess_run unfold_argv) (fun _ => ret tt)
     else ret tt
   else ret tt) ;;;
  absent <- (e <- db_exists ;; ret (negb e)) ;;
  if (absent : bool) then ret (PyList [])
  else
    sqlite3_connect ;;;
    try_finally
      (try_except
         (table <- fetch_table_name ;;
          match table with
          | None => ret (PyList [])
          | Some _ =>
              rows <- fetch_recent_rows ;;
              ret (PyList (List.map transaction_of_row rows))
          end)
         (fun e => emit (PrintedDbError e) ;;; ret (PyList [])))
      (ret tt).

Definition sync_transactions : M world pyval :=
  try_except
    (subprocess_run unfold_argv ;;;
     ret (PyDict [("status", PyStr "success")]))
    (fun e =>
       match e with
       | CalledProcessError _ =>
           raise (HTTPException 500 "Failed to sync. Ensure you are logged in." None)
       | _ => raise (HTTPException 500 "" (Some e))
       end).

(** *** 4. Portfolio (lines 201-234) *)

(** The two local variables the loop of [get_portfolio] updates. *)
Record locals : Type := mkLocals {
  portfolio : list pyval;
  total_value : pyval
}.

(** A statement about the world, run where the locals are in scope too. *)
Definition in_world {A : Type} (m : M world A) : M (world * locals) A :=
  fun s =>
    match m (fst s) with
    | (r, w') => (r, (w', snd s))
    end.

(** [portfolio.append(entry)] *)
Definition portfolio_append (entry : pyval) : M (world * locals) unit :=
  modify (fun s => (fst s, mkLocals (portfolio (snd s) ++ [entry]) (total_value (snd s)))).

(** [total_value += value] *)
Definition total_value_add (value : float) : M (world * locals) unit :=
  fun s =>
    match py_add (total_value (snd s)) (PyFloat value) with
    | Ok t => (Ok tt, (fst s, mkLocals (portfolio (snd s)) t))
    | Raise e => (Raise e, s)
    end.

(** The body of the [try] (lines 213-227) for one holding. *)
Definition price_holding (code : pyval) (units : float) : M (world * locals) unit :=
  resp <- in_world (http_get ("https://api.mfapi.in/mf/" ++ fmt code)%string) ;;
  data <- lift (response_json resp) ;;
  if py_truthy data then
    has_data <- lift (py_contains_str "data" data) ;;
    if (has_data : bool) then
      n <- lift (let! points := py_getitem data (PyStr "data") in py_len points) ;;
      if 0 <? n then
        nav <- lift (let! points := py_getitem data (PyStr "data") in
                     let! latest := py_getitem points (PyInt 0) in
                     let! quoted := py_getitem latest (PyStr "nav") in
                     py_float quoted) ;;
        fund_name <- lift (let! meta := py_getitem data (PyStr "meta") in
                           py_getitem meta (PyStr "scheme_name")) ;;
        let value := PrimFloat.mul units nav in
        portfolio_append
          (PyDict [ ("scheme_code", code);
                    ("scheme_name", fund_name);
                    ("units", PyFloat units);
                    ("nav", PyFloat nav);
                    ("current_value", PyFloat (round2 value)) ]) ;;;
        total_value_add value
      else ret tt
    else ret tt
  else ret tt.

(** The [for holding in holdings] loop (lines 208-229). *)
Fixpoint for_each_holding (holdings : list pyval) : M (world * locals) unit :=
  match holdings with
  | [] => ret tt
  | holding :: rest =>
      code <- lift (py_getitem holding (PyStr "scheme_code")) ;;
      units <- lift (let! u := py_getitem holding (PyStr "units") in py_float u) ;;
      try_except
        (price_holding code units)
        (fun e => in_world (emit (PrintedFetchError code e))) ;;;
      for_each_holding rest
  end.

Definition get_portfolio : M world pyval :=
  fun w =>
    let start := mkLocals [] (PyInt 0) in
    let run : M (world * locals) pyval :=
      holdings <- in_world load_holdings ;;
      items <- lift (py_iter holdings) ;;
      for_each_holding items ;;;
      shown <- gets (fun s => portfolio (snd s)) ;;
      total <- (fun s => lift (py_round2 (total_value (snd s))) s) ;;
      ret (PyDict [("portfolio", PyList shown); ("total_value", total)]) in
    match run (w, start) with
    | (r, s) => (r, fst s)
    end.

End Server.

(** ** The components as the specification describes them

    These definitions follow the words of the specification; the theorems
    below compare them with the endpoints above. *)

Section Described.

Variable R : runtime.

(** A Holding: a mapping with a [scheme_code] and with [units] that
    [float()] accepts. *)
Definition holding_fields (h : pyval) : option (pyval * float) :=
  match h with
  | PyDict entries =>
      match dict_lookup "scheme_code" entries, dict_lookup "units" entries with
      | Some code, Some u =>
          match py_float R u with
          | Ok x => Some (code, x)
          | Raise _ => None
          end
      | _, _ => None
      end
  | _ => None
  end.

Definition well_formed_holding (h : pyval) : bool :=
  match holding_fields h with Some _ => true | None => false end.

Definition feed_url (code : pyval) : string :=
  ("https://api.mfapi.in/mf/" ++ fmt R code)%string.

(** Price Lookup, [fetch(schemeId)]: the nav of the most recent price point
    and the display name, out of a reply of the shape
    [{meta: {scheme_name}, data: [{nav, ...}, ...]}]; it fails when the
    call fails, the reply is malformed, or there is no price point. *)
Definition price_lookup (code : pyval) : option (float * pyval) :=
  match requests_get R (feed_url code) with
  | NoReply => None
  | Reply _ text =>
      match json_loads R text with
      | Some (PyDict feed) =>
          match dict_lookup "data" feed, dict_lookup "meta" feed with
          | Some (PyList (PyDict latest :: _)), Some (PyDict meta) =>
              match dict_lookup "nav" latest, dict_lookup "scheme_name" meta with
              | Some quoted, Some name =>
                  match py_float R quoted with
                  | Ok nav => Some (nav, name)
                  | Raise _ => None
                  end
              | _, _ => None
              end
          | _, _ => None
          end
      | _ => None
      end
  end.

(** The world once the feed has been asked about [code]. *)
Definition looked_up (w : world) (code : pyval) : world :=
  mkWorld (files w) (log w ++ [Got (feed_url code)]).

(** The holding's price lookup succeeded. *)
Definition lookup_succeeded (h : pyval) : bool :=
  match holding_fields h with
  | Some (code, _) => match price_lookup code with Some _ => true | None => false end
  | None => false
  end.

(** [units * nav], not rounded. *)
Definition current_value (h : pyval) : float :=
  match holding_fields h with
  | Some (code, units) =>
      match price_lookup code with
      | Some (nav, _) => PrimFloat.mul units nav
      | None => PrimFloat.zero
      end
  | None => PrimFloat.zero
  end.

(** The Priced Holding of a holding whose lookup succeeded. *)
Definition Priced_Holding (h : pyval) : pyval :=
  match holding_fields h with
  | Some (code, units) =>
      match price_lookup code with
      | Some (nav, name) =>
          PyDict [ ("scheme_code", code);
                   ("scheme_name", name);
                   ("units", PyFloat units);
                   ("nav", PyFloat nav);
                   ("current_value", PyFloat (round2 (PrimFloat.mul units nav))) ]
      | None => PyNone
      end
  | None => PyNone
  end.

(** [0 + v1 + ... + vn], added from the left as Python adds. *)
Fixpoint sum_from (acc : pyval) (vs : list float) : result pyval :=
  match vs with
  | [] => Ok acc
  | v :: rest => let! next := py_add acc (PyFloat v) in sum_from next rest
  end.

Definition py_sum (vs : list float) : result pyval := sum_from (PyInt 0) vs.

(** The same sum, rounded to two decimals, in closed form: the integer 0
    of an empty sum stays an integer. *)
Definition rounded_sum (vs : list float) : pyval :=
  match vs with
  | [] => PyInt 0
  | v :: rest =>
      PyFloat (round2 (fold_left PrimFloat.add rest (PrimFloat.add PrimFloat.zero v)))
  end.

(** The running total is the integer it starts as, or a float. *)
Definition running (t : pyval) : Prop := t = PyInt 0 \/ exists x, t = PyFloat x.

(** What [fold_verify] sends, and the world once it has been sent. *)
Definition verify_url : string := "https://api.fold.money/v1/auth/otp/verify".

Definition verify_payload (req : VerifyRequest) : pyval :=
  PyDict [("phone", PyStr (with_country_code (phone req))); ("otp", PyStr (otp req))].

Definition posted (req : VerifyRequest) (w : world) : world :=
  mkWorld (files w) (log w ++ [Posted verify_url (verify_payload req)]).


(** The addresses [requests.get] was called with, in order. *)
Definition lookups (events : list event) : list string :=
  flat_map (fun ev => match ev with Got url => [url] | _ => [] end) events.

(** The address the feed is asked at for a holding. *)
Definition holding_url (h : pyval) : string :=
  match holding_fields h with
  | Some (code, _) => feed_url code
  | None => EmptyString
  end.

(** What [set_holdings_api] stores for a list of Holding. *)
Definition stored_holdings (holdings : list Holding) : pyval :=
  PyList (List.map (fun h => PyDict [("scheme_code", PyStr (scheme_code h));
                                     ("units", PyFloat (units h))]) holdings).

(** What [fold_login] sends. *)
Definition login_url : string := "https://api.fold.money/v1/auth/otp".

Definition login_payload (req : LoginRequest) : pyval :=
  PyDict [("phone", PyStr (with_country_code (login_phone req))); ("channel", PyStr "sms")].

(** A status [raise_for_status] raises on. *)
Definition error_status (code : Z) : bool := (400 <=? code) && (code <? 600).

(** One of the digits [bytes.hex()] writes. *)
Definition lower_hex (c : ascii) : bool :=
  existsb (Ascii.eqb c) (list_ascii_of_string "0123456789abcdef").

(** What one holding leaves in the log when the feed does not answer: the
    request, and the diagnostic naming the scheme. *)
Definition unanswered (h : pyval) : list event :=
  match holding_fields h with
  | Some (code, _) => [Got (feed_url code); PrintedFetchError code RequestException]
  | None => []
  end.


(** How a run of the tool on the disk of [w] ends. *)
Definition tool_outcome (w : world) : completed :=
  fst (unfold_binary R unfold_argv (files w)).

(** Transaction Reader, steps 2 and 3: what reading the database at
    [DB_PATH] gives once the connection is open. *)
Definition read_recent (w : world) : result pyval * world :=
  match db_sqlite (files w) with
  | Db NoTable => (Ok (PyList []), w)
  | Db (Rows stored) =>
      (Ok (PyList (List.map transaction_of_row
                            (firstn 50 (order_by_timestamp_desc R stored)))), w)
  | Db OtherColumns =>
      (Ok (PyList []), mkWorld (files w) (log w ++ [PrintedDbError OperationalError]))
  | DbNotADatabase =>
      (Ok (PyList []), mkWorld (files w) (log w ++ [PrintedDbError DatabaseError]))
  | _ => (Ok (PyList []), w)
  end.

(** An order [ORDER BY] can sort by. *)
Definition total_preorder (le : pyval -> pyval -> bool) : Prop :=
  (forall a b, le a b = true \/ le b a = true) /\
  (forall a b c, le a b = true -> le b c = true -> le a c = true).

(** Ordered by timestamp, latest first. *)
Definition later_first (a b : row) : Prop :=
  sqlite_le R (col_timestamp b) (col_timestamp a) = true.

(** The uniform record shape of a transaction. *)
Definition transaction_keys : list string :=
  ["uuid"; "amount"; "current_balance"; "timestamp"; "type"; "account"; "merchant"].

Definition has_transaction_shape (v : pyval) : Prop :=
  match v with
  | PyDict entries => List.map fst entries = transaction_keys
  | _ => False
  end.

(** A returned record holds a row: read under each of the seven names, it
    gives the row's column of that name. *)
Definition holds_row (r : row) (v : pyval) : Prop :=
  py_getitem v (PyStr "uuid") = Ok (col_uuid r) /\
  py_getitem v (PyStr "amount") = Ok (col_amount r) /\
  py_getitem v (PyStr "current_balance") = Ok (col_current_balance r) /\
  py_getitem v (PyStr "timestamp") = Ok (col_timestamp r) /\
  py_getitem v (PyStr "type") = Ok (col_type r) /\
  py_getitem v (PyStr "account") = Ok (col_account r) /\
  py_getitem v (PyStr "merchant") = Ok (col_merchant r).

(** Two returned records, the one with the later [timestamp] first. *)
Definition later_record_first (a b : pyval) : Prop :=
  exists ta tb,
    py_getitem a (PyStr "timestamp") = Ok ta /\
    py_getitem b (PyStr "timestamp") = Ok tb /\
    sqlite_le R tb ta = true.

(** A stored holding reads as the posted one. *)
Definition holds_holding (h : Holding) (item : pyval) : Prop :=
  py_getitem item (PyStr "scheme_code") = Ok (PyStr (scheme_code h)) /\
  py_getitem item (PyStr "units") = Ok (PyFloat (units h)).

End Described.

(** The runtime [R] with the status code of every reply of the price feed
    replaced by [recode url code]; everything else as in [R]. *)
Definition with_statuses (recode : string -> Z -> Z) (R : runtime) : runtime := {|
  json_loads := json_loads R;
  json_dumps := json_dumps R;
  yaml_safe_load := yaml_safe_load R;
  yaml_dump := yaml_dump R;
  float_of_str := float_of_str R;
  format_value := format_value R;
  urandom := urandom R;
  requests_get := fun url =>
    match requests_get R url with
    | NoReply => NoReply
    | Reply code text => Reply (recode url code) text
    end;
  requests_post := requests_post R;
  unfold_binary := unfold_binary R;
  sqlite_le := sqlite_le R
|}.

(** ** A recorded session

    One concrete runtime and a few disks, for running the endpoints: the
    texts this session's files and replies hold, with what the packages
    make of them.  Asked about anything else, the session's [json], [yaml]
    and [float] decline or give a placeholder. *)

Module Session.

Definition dq : string := String (ascii_of_nat 34) EmptyString.
Definition nl : string := String (ascii_of_nat 10) EmptyString.

(** [s] between double quotes *)
Definition q (s : string) : string := (dq ++ s ++ dq)%string.

Definition join (parts : list string) : string := String.concat EmptyString parts.

(** *** Holdings: 2 units of A, 3 units of B *)

Definition holding_A : pyval :=
  PyDict [("scheme_code", PyStr "A"); ("units", PyFloat 2)].
Definition holding_B : pyval :=
  PyDict [("scheme_code", PyStr "B"); ("units", PyFloat 3)].
Definition holdings_AB : pyval := PyList [holding_A; holding_B].

Definition holdings_text : string :=
  join [ "[{"; q "scheme_code"; ": "; q "A"; ", "; q "units"; ": 2.0}, ";
         "{"; q "scheme_code"; ": "; q "B"; ", "; q "units"; ": 3.0}]" ].

(** Two contents that parse and hold no Holding: a list of strings, and a
    holding whose units are a word. *)
Definition names_only : pyval := PyList [PyStr "A"; PyStr "B"].
Definition names_only_text : string := join ["["; q "A"; ", "; q "B"; "]"].

Definition wordy : pyval :=
  PyList [PyDict [("scheme_code", PyStr "A"); ("units", PyStr "lots")]].
Definition wordy_text : string :=
  join ["[{"; q "scheme_code"; ": "; q "A"; ", "; q "units"; ": "; q "lots"; "}]"].

(** *** The price feed: A is quoted at 10, C has no price point, D answers
    with a page that is no JSON, nothing else answers. *)

Definition feed_A : pyval :=
  PyDict [ ("meta", PyDict [("scheme_name", PyStr "Fund A")]);
           ("data", PyList [ PyDict [("date", PyStr "02-01-2024"); ("nav", PyStr "10.0")];
                             PyDict [("date", PyStr "01-01-2024"); ("nav", PyStr "9.5")] ]);
           ("status", PyStr "SUCCESS") ].

Definition feed_A_text : string :=
  join [ "{"; q "meta"; ": {"; q "scheme_name"; ": "; q "Fund A"; "}, ";
         q "data"; ": [{"; q "date"; ": "; q "02-01-2024"; ", "; q "nav"; ": "; q "10.0"; "}, ";
         "{"; q "date"; ": "; q "01-01-2024"; ", "; q "nav"; ": "; q "9.5"; "}], ";
         q "status"; ": "; q "SUCCESS"; "}" ].

Definition feed_C : pyval :=
  PyDict [("meta", PyDict []); ("data", PyList []); ("status", PyStr "SUCCESS")].

Definition feed_C_text : string :=
  join [ "{"; q "meta"; ": {}, "; q "data"; ": [], "; q "status"; ": "; q "SUCCESS"; "}" ].

Definition error_page : string := "<html>Bad Gateway</html>".

(** *** The token configuration *)

Definition entropy : list Byte.byte := [Byte.x0a; Byte.x0b; Byte.x0c; Byte.x0d].

Definition config_text : string :=
  join [ "device_hash: python-client-0a0b0c0d"; nl;
         "fold_user:"; nl; "  uuid: u-1"; nl;
         "token:"; nl; "  access: acc-1"; nl; "  refresh: ref-1"; nl ].

(** What [yaml.safe_load] makes of [config_text]: [yaml.dump] wrote the
    keys in sorted order. *)
Definition config_loaded : pyval :=
  PyDict [ ("device_hash", PyStr "python-client-0a0b0c0d");
           ("fold_user", PyDict [("uuid", PyStr "u-1")]);
           ("token", PyDict [("access", PyStr "acc-1"); ("refresh", PyStr "ref-1")]) ].

(** *** The identity service: the code 123456 is right, 000000 gets a
    reply without tokens, any other code is refused. *)

Definition verify_ok : pyval :=
  PyDict [("data", PyDict [ ("access_token", PyStr "acc-1");
                            ("refresh_token", PyStr "ref-1");
                            ("user_meta", PyDict [("uuid", PyStr "u-1")]) ])].

Definition verify_ok_text : string :=
  join [ "{"; q "data"; ": {"; q "access_token"; ": "; q "acc-1"; ", ";
         q "refresh_token"; ": "; q "ref-1"; ", ";
         q "user_meta"; ": {"; q "uuid"; ": "; q "u-1"; "}}}" ].

Definition verify_empty : pyval :=
  PyDict [("data", PyDict [ ("access_token", PyStr EmptyString);
                            ("user_meta", PyDict [("uuid", PyStr "u-1")]) ])].

Definition verify_empty_text : string :=
  join [ "{"; q "data"; ": {"; q "access_token"; ": "; dq; dq; ", ";
         q "user_meta"; ": {"; q "uuid"; ": "; q "u-1"; "}}}" ].

(** *** The transaction database: sixty rows, the oldest first, stamped
    with the second they were made. *)

Definition stored_row (n : nat) : row :=
  mkRow (PyStr "tx") (PyFloat 100) (PyFloat 5000)
        (PyInt (1700000000 + Z.of_nat n))
        (PyStr "DEBIT") (PyStr "savings") (PyStr "grocer").

Definition sixty_rows : list row := List.map stored_row (seq 0 60).

(** SQLite's order on what this database stores: NULL first, then
    integers by value, then text byte by byte; whatever else comes last. *)
Definition sort_key (v : pyval) : Z * Z * string :=
  match v with
  | PyNone => (0, 0, EmptyString)
  | PyInt i => (1, i, EmptyString)
  | PyStr s => (2, 0, s)
  | _ => (3, 0, EmptyString)
  end.

Definition key_le (a b : Z * Z * string) : bool :=
  let '(ca, ia, sa) := a in
  let '(cb, ib, sb) := b in
  (ca <? cb) || ((ca =? cb) && ((ia <? ib) || ((ia =? ib) && String.leb sa sb))).

Definition session_le (a b : pyval) : bool := key_le (sort_key a) (sort_key b).

(** *** The runtime *)

Definition session : runtime := {|
  json_loads := fun text =>
    if String.eqb text holdings_text then Some holdings_AB
    else if String.eqb text "[]" then Some (PyList [])
    else if String.eqb text names_only_text then Some names_only
    else if String.eqb text wordy_text then Some wordy
    else if String.eqb text feed_A_text then Some feed_A
    else if String.eqb text feed_C_text then Some feed_C
    else if String.eqb text verify_ok_text then Some verify_ok
    else if String.eqb text verify_empty_text then Some verify_empty
    else None;
  json_dumps := fun v =>
    if py_eqb v holdings_AB then holdings_text
    else if py_eqb v (PyList []) then "[]"
    else "null";
  yaml_safe_load := fun text =>
    if String.eqb text config_text then Some config_loaded else None;
  yaml_dump := fun v =>
    if py_eqb v config_loaded then config_text else ("null" ++ nl)%string;
  float_of_str := fun s =>
    if String.eqb s "10.0" then Some 10%float
    else if String.eqb s "9.5" then Some 9.5%float
    else None;
  format_value := fun _ => "None";
  urandom := fun n => firstn n entropy;
  requests_get := fun url =>
    if String.eqb url "https://api.mfapi.in/mf/A" then Reply 200 feed_A_text
    else if String.eqb url "https://api.mfapi.in/mf/C" then Reply 200 feed_C_text
    else if String.eqb url "https://api.mfapi.in/mf/D" then Reply 502 error_page
    else NoReply;
  requests_post := fun url payload =>
    if String.eqb url "https://api.fold.money/v1/auth/otp/verify" then
      match py_get payload "otp" PyNone with
      | Ok (PyStr "123456") => Reply 200 verify_ok_text
      | Ok (PyStr "000000") => Reply 200 verify_empty_text
      | _ => Reply 401 "{}"
      end
    else Reply 200 "{}";
  unfold_binary := fun argv d =>
    match unfold_config_yaml d with
    | Some _ => (Exited 0, mkDisk (holdings_json d) (unfold_config_yaml d) (Db (Rows sixty_rows)))
    | None => (Exited 1, d)
    end;
  sqlite_le := session_le
|}.

(** *** Disks *)

(** A fresh installation: no holdings, no token, no database. *)
Definition fresh : world := mkWorld (mkDisk None None DbAbsent) [].

(** Holdings A and B saved; not logged in. *)
Definition with_holdings : world := mkWorld (mkDisk (Some holdings_text) None DbAbsent) [].

(** A holdings file that is no JSON. *)
Definition with_garbage : world := mkWorld (mkDisk (Some "{") None DbAbsent) [].

(** Holdings files that parse and hold no Holding. *)
Definition with_names : world := mkWorld (mkDisk (Some names_only_text) None DbAbsent) [].
Definition with_words : world := mkWorld (mkDisk (Some wordy_text) None DbAbsent) [].

(** Logged in and synchronised. *)
Definition synced : world :=
  mkWorld (mkDisk None (Some config_text) (Db (Rows sixty_rows))) [].

(** Something at [DB_PATH] that SQLite cannot open. *)
Definition blocked : world := mkWorld (mkDisk None None DbUnopenable) [].

(** *** More of the session *)

(** The same session with the price feed out of reach. *)
Definition offline : runtime := {|
  json_loads := json_loads session;
  json_dumps := json_dumps session;
  yaml_safe_load := yaml_safe_load session;
  yaml_dump := yaml_dump session;
  float_of_str := float_of_str session;
  format_value := format_value session;
  urandom := urandom session;
  requests_get := fun _ => NoReply;
  requests_post := requests_post session;
  unfold_binary := unfold_binary session;
  sqlite_le := sqlite_le session
|}.

(** The same session, reading two more texts: [null] and an object that
    maps a scheme to its units. *)
Definition object_text : string := join ["{"; q "A"; ": 2.0}"].

Definition lenient : runtime := {|
  json_loads := fun text =>
    if String.eqb text "null" then Some PyNone
    else if String.eqb text "{}" then Some (PyDict [])
    else if String.eqb text object_text then Some (PyDict [("A", PyFloat 2)])
    else json_loads session text;
  json_dumps := json_dumps session;
  yaml_safe_load := yaml_safe_load session;
  yaml_dump := yaml_dump session;
  float_of_str := float_of_str session;
  format_value := format_value session;
  urandom := urandom session;
  requests_get := requests_get session;
  requests_post := requests_post session;
  unfold_binary := unfold_binary session;
  sqlite_le := sqlite_le session
|}.

(** Logged in, not yet synchronised. *)
Definition logged_in : world := mkWorld (mkDisk None (Some config_text) DbAbsent) [].

(** A token file that is no YAML. *)
Definition with_bad_config : world := mkWorld (mkDisk None (Some "{") DbAbsent) [].

(** Holdings files that hold no list. *)
Definition with_null : world := mkWorld (mkDisk (Some "null") None DbAbsent) [].
Definition with_empty_object : world := mkWorld (mkDisk (Some "{}") None DbAbsent) [].
Definition with_object : world := mkWorld (mkDisk (Some object_text) None DbAbsent) [].

End Session.

(** * Theorems *)

(** ** Proof steps shared by the endpoints *)

(** Unfold the monad and run what is decided. *)
Ltac run :=
  cbv beta iota delta [bind ret raise lift gets modify try_except try_finally in_world emit
                       update_disk path_exists read_text and_then];
  cbn [fst snd files log portfolio total_value holdings_json unfold_config_yaml db_sqlite
       negb andb orb].

(** Apply the builtins to values whose head is known. *)
Ltac builtins :=
  cbv beta iota delta [py_truthy py_contains_str py_getitem py_len py_get py_iter and_then];
  cbn [fst snd Datatypes.length Z.of_nat Z.ltb Z.compare].

(** Split on the scrutinee of an innermost [match] of the goal. *)
Ltac break_match :=
  match goal with
  | |- context [match ?x with _ => _ end] =>
      lazymatch x with
      | existsb _ _ => let E := fresh "E" in destruct x eqn:E
      | context [match _ with _ => _ end] => fail
      | _ => let E := fresh "E" in destruct x eqn:E
      end
  end.

(** ** Holdings Store *)

Section HoldingsStore.

Variable R : runtime.

Lemma load_holdings_missing (w : world) :
  holdings_json (files w) = None ->
  load_holdings R w = (Ok (PyList []), w).
Proof.
  intros H. unfold load_holdings. run. rewrite H. reflexivity.
Qed.

Lemma load_holdings_present (w : world) (text : string) :
  holdings_json (files w) = Some text ->
  load_holdings R w =
  (match json_loads R text with Some v => Ok v | None => Ok (PyList []) end, w).
Proof.
  intros H. unfold load_holdings, json_load. run. rewrite H. run. rewrite H. run.
  destruct (json_loads R text); reflexivity.
Qed.

(** Whatever is on disk, loading returns a value and leaves the world as
    it was. *)
Lemma load_holdings_returns (w : world) :
  exists v, load_holdings R w = (Ok v, w).
Proof.
  destruct (holdings_json (files w)) as [text|] eqn:H.
  - rewrite (load_holdings_present w text H).
    destruct (json_loads R text); eauto.
  - rewrite (load_holdings_missing w H). eauto.
Qed.

(** C4.  [load_holdings] never raises and changes nothing; when the
    holdings file is missing, and when its content does not parse, what it
    returns is the empty list. *)
Theorem load_holdings_fail_open (w : world) :
  (exists v, load_holdings R w = (Ok v, w)) /\
  (holdings_json (files w) = None ->
   load_holdings R w = (Ok (PyList []), w)) /\
  (forall text, holdings_json (files w) = Some text ->
                json_loads R text = None ->
                load_holdings R w = (Ok (PyList []), w)).
Proof.
  split; [apply load_holdings_returns|split].
  - apply load_holdings_missing.
  - intros text H Hp. rewrite (load_holdings_present w text H), Hp. reflexivity.
Qed.

Lemma save_holdings_writes (w : world) (holdings : pyval) :
  save_holdings R holdings w =
  (Ok tt, mkWorld (mkDisk (Some (json_dumps R holdings))
                          (unfold_config_yaml (files w)) (db_sqlite (files w)))
                  (log w)).
Proof. reflexivity. Qed.

(** C3.  When [json] reads back what it wrote for [holdings], [load]
    after [save] returns exactly [holdings]; the file then holds the dump
    of [holdings] and nothing else, whatever was saved before, and the
    other files are untouched. *)
Theorem save_holdings_then_load (w : world) (holdings : pyval) :
  json_loads R (json_dumps R holdings) = Some holdings ->
  let saved := snd (save_holdings R holdings w) in
  fst (save_holdings R holdings w) = Ok tt /\
  load_holdings R saved = (Ok holdings, saved) /\
  holdings_json (files saved) = Some (json_dumps R holdings) /\
  (forall prior,
     snd (save_holdings R holdings (snd (save_holdings R prior w))) = saved) /\
  unfold_config_yaml (files saved) = unfold_config_yaml (files w) /\
  db_sqlite (files saved) = db_sqlite (files w).
Proof.
  intros Hrt saved. subst saved. rewrite save_holdings_writes. cbn [fst snd].
  repeat split.
  erewrite load_holdings_present by reflexivity. rewrite Hrt. reflexivity.
Qed.

(** What [POST /api/holdings] stores, [GET /api/holdings] returns. *)
Lemma set_then_get_holdings (w : world) (holdings : list Holding) :
  json_loads R (json_dumps R (stored_holdings holdings)) = Some (stored_holdings holdings) ->
  fst (get_holdings_api R (snd (set_holdings_api R holdings w))) =
  Ok (stored_holdings holdings).
Proof.
  intros Hrt.
  change (snd (set_holdings_api R holdings w))
    with (snd (save_holdings R (stored_holdings holdings) w)).
  unfold get_holdings_api. rewrite save_holdings_writes. cbn [snd].
  erewrite load_holdings_present by reflexivity. rewrite Hrt. reflexivity.
Qed.

End HoldingsStore.

(** ** Token State *)

Section TokenState.

Variable R : runtime.

Lemma get_unfold_token_missing (w : world) :
  unfold_config_yaml (files w) = None ->
  get_unfold_token R w = (Ok PyNone, w).
Proof.
  intros H. unfold get_unfold_token. run. rewrite H. reflexivity.
Qed.

Lemma get_unfold_token_present (w : world) (text : string) :
  unfold_config_yaml (files w) = Some text ->
  get_unfold_token R w =
  (match (let! config := yaml_load R text in
          let! token := py_get config "token" (PyDict []) in
          py_get token "access" PyNone) with
   | Ok v => Ok v
   | Raise _ => Ok PyNone
   end, w).
Proof.
  intros H. unfold get_unfold_token. run. rewrite H. run. rewrite H. run.
  repeat break_match; reflexivity.
Qed.

(** Reading the token never raises and changes nothing. *)
Lemma get_unfold_token_returns (w : world) :
  exists v, get_unfold_token R w = (Ok v, w).
Proof.
  destruct (unfold_config_yaml (files w)) as [text|] eqn:H.
  - rewrite (get_unfold_token_present w text H). break_match; eauto.
  - rewrite (get_unfold_token_missing w H). eauto.
Qed.

Lemma save_unfold_config_writes (w : world) (access refresh uuid : pyval) :
  save_unfold_config R access refresh uuid w =
  (Ok tt, mkWorld (mkDisk (holdings_json (files w))
                          (Some (yaml_dump R (unfold_config R access refresh uuid)))
                          (db_sqlite (files w)))
                  (log w)).
Proof. reflexivity. Qed.

(** What [==] with the written record says about a loaded one: it maps
    [token] to a mapping whose [access] is the very string. *)
Lemma loaded_config_access (access : string) (refresh uuid loaded : pyval) :
  py_eqb (unfold_config R (PyStr access) refresh uuid) loaded = true ->
  (let! token := py_get loaded "token" (PyDict []) in py_get token "access" PyNone)
  = Ok (PyStr access).
Proof.
  unfold unfold_config.
  destruct loaded as [ | b | i | x | s | items | entries]; try discriminate.
  cbn [py_eqb]. intros H.
  apply andb_true_iff in H. destruct H as [_ H].
  apply andb_true_iff in H. destruct H as [H _].
  cbn [py_get and_then].
  destruct (dict_lookup "token" entries) as [token|]; [|discriminate].
  destruct token as [ | b | i | x | s | items | inner]; try discriminate.
  cbn [py_eqb] in H.
  apply andb_true_iff in H. destruct H as [_ H].
  apply andb_true_iff in H. destruct H as [H _].
  cbn [py_get and_then].
  destruct (dict_lookup "access" inner) as [a|]; [|discriminate].
  destruct a; try discriminate.
  cbn [py_eqb] in H. apply String.eqb_eq in H. subst. reflexivity.
Qed.

(** C5.  With no token record on disk [fold_status] reports
    [logged_in: false].  Once [save_unfold_config] has stored string
    tokens, and [yaml] loads a record equal to the one it dumped,
    [get_unfold_token] returns the stored access token and [fold_status]
    reports [logged_in: true]. *)
Theorem logged_in_after_save (w : world) (access refresh : string) (uuid : pyval) :
  (unfold_config_yaml (files w) = None ->
   fst (fold_status R w) = Ok (PyDict [("logged_in", PyBool false)])) /\
  (forall loaded,
     let record := unfold_config R (PyStr access) (PyStr refresh) uuid in
     yaml_safe_load R (yaml_dump R record) = Some loaded ->
     py_eqb record loaded = true ->
     let saved := snd (save_unfold_config R (PyStr access) (PyStr refresh) uuid w) in
     fst (get_unfold_token R saved) = Ok (PyStr access) /\
     fst (fold_status R saved) = Ok (PyDict [("logged_in", PyBool true)])).
Proof.
  split.
  - intros H. unfold fold_status, bind. rewrite (get_unfold_token_missing w H). reflexivity.
  - intros loaded record Hload Heq saved.
    assert (Htok : get_unfold_token R saved = (Ok (PyStr access), saved)).
    { subst saved. rewrite save_unfold_config_writes. cbn [snd].
      erewrite get_unfold_token_present by reflexivity.
      unfold yaml_load. fold record. rewrite Hload. cbn [and_then].
      rewrite (loaded_config_access access (PyStr refresh) uuid loaded Heq). reflexivity. }
    split.
    + rewrite Htok. reflexivity.
    + unfold fold_status, bind. rewrite Htok. reflexivity.
Qed.

End TokenState.

(** ** Verification *)

Section Verification.

Variable R : runtime.

(** The two ways a verification ends: an error that wraps its cause and
    leaves the disk alone, or success with the two tokens of the reply,
    both truthy, written. *)
Lemma fold_verify_outcome (req : VerifyRequest) (w : world) :
  (exists cause,
     fold_verify R req w =
     (Raise (HTTPException 400 "Verification failed: " (Some cause)), posted req w)) \/
  (exists code text body data access refresh uuid,
     requests_post R verify_url (verify_payload req) = Reply code text /\
     json_loads R text = Some body /\
     py_get body "data" (PyDict []) = Ok data /\
     py_get data "access_token" PyNone = Ok access /\
     py_get data "refresh_token" PyNone = Ok refresh /\
     py_truthy access = true /\ py_truthy refresh = true /\
     fold_verify R req w =
     (Ok (PyDict [("status", PyStr "success")]),
      snd (save_unfold_config R access refresh uuid (posted req w)))).
Proof.
  unfold fold_verify, http_post, raise_for_status, response_json, json_load, posted,
    save_unfold_config.
  change "https://api.fold.money/v1/auth/otp/verify" with verify_url.
  change (PyDict [("phone", PyStr (with_country_code (phone req))); ("otp", PyStr (otp req))])
    with (verify_payload req).
  run.
  destruct (requests_post R verify_url (verify_payload req)) as [|code text] eqn:Hreply; run;
    [left; eauto|].
  repeat (break_match; run);
    first [ left; eexists; reflexivity
          | right;
            match goal with
            | H : _ && _ = true |- _ => apply andb_true_iff in H; destruct H
            end;
            do 7 eexists; repeat split; eassumption ].
Qed.


End Verification.

(** ** Sync Invoker and Transaction Reader *)

Section Transactions.

Variable R : runtime.

Lemma subprocess_run_cases (argv : list string) (w : world) :
  subprocess_run R argv w =
  match unfold_binary R argv (files w) with
  | (NotStarted, _) => (Raise OSError, mkWorld (files w) (log w ++ [Ran argv]))
  | (Exited code, after) =>
      (if code =? 0 then Ok tt else Raise (CalledProcessError code),
       mkWorld after (log w ++ [Ran argv]))
  end.
Proof.
  unfold subprocess_run. destruct (unfold_binary R argv (files w)) as [[|code] after];
    [reflexivity|]. destruct (code =? 0); reflexivity.
Qed.


(** With something at [DB_PATH]: no sync, and the read path, unless the
    connection cannot be opened. *)
Lemma get_transactions_present (w : world) :
  db_sqlite (files w) <> DbAbsent ->
  get_transactions R w =
  match db_sqlite (files w) with
  | DbUnopenable => (Raise OperationalError, w)
  | _ => read_recent R w
  end.
Proof.
  intros Hdb.
  unfold get_transactions, db_exists, read_recent, sqlite3_connect, fetch_table_name,
    fetch_recent_rows.
  destruct (get_unfold_token_returns R w) as [token Htok].
  destruct (db_sqlite (files w)) as [ | | | table] eqn:E; [congruence| | | ];
    repeat (run; first [rewrite E | rewrite Htok]); run;
    destruct (py_truthy token); repeat (run; rewrite E); run; try reflexivity;
    destruct table; repeat (run; rewrite E); run; reflexivity.
Qed.

(** With nothing at [DB_PATH]: one run of the tool, whose failure is
    swallowed, then a second look. *)
Lemma get_transactions_absent (w : world) :
  db_sqlite (files w) = DbAbsent ->
  get_transactions R w =
  let after := snd (subprocess_run R unfold_argv w) in
  match db_sqlite (files after) with
  | DbAbsent => (Ok (PyList []), after)
  | DbUnopenable => (Raise OperationalError, after)
  | _ => read_recent R after
  end.
Proof.
  intros Hdb.
  unfold get_transactions, db_exists, read_recent, sqlite3_connect, fetch_table_name,
    fetch_recent_rows.
  repeat (run; rewrite Hdb); run.
  destruct (subprocess_run R unfold_argv w) as [r after]. run.
  destruct (db_sqlite (files after)) as [ | | | table] eqn:E;
    destruct r; repeat (run; rewrite E); run; try reflexivity;
    destruct table; repeat (run; rewrite E); run; reflexivity.
Qed.



(** C6, at the input where it fails.  With something at [DB_PATH] that
    SQLite cannot open, [get_transactions] raises [OperationalError]: the
    connection is opened before the [try]. *)
Theorem get_transactions_raises_when_connect_fails (w : world) :
  db_sqlite (files w) = DbUnopenable ->
  get_transactions R w = (Raise OperationalError, w).
Proof.
  intros Hdb. rewrite get_transactions_present by (rewrite Hdb; discriminate).
  rewrite Hdb. reflexivity.
Qed.

Lemma sync_transactions_cases (w : world) :
  fst (sync_transactions R w) =
  match tool_outcome R w with
  | NotStarted => Raise (HTTPException 500 "" (Some OSError))
  | Exited code =>
      if code =? 0 then Ok (PyDict [("status", PyStr "success")])
      else Raise (HTTPException 500 "Failed to sync. Ensure you are logged in." None)
  end.
Proof.
  unfold sync_transactions, tool_outcome. run. rewrite subprocess_run_cases.
  destruct (unfold_binary R unfold_argv (files w)) as [[|code] after]; run;
    [reflexivity|]. destruct (code =? 0); reflexivity.
Qed.

(** C8.  [sync_transactions] succeeds exactly when the tool exits with
    status 0.  Any other end of the run is an [HTTPException] with status
    500: the fixed message about being logged in for a non-zero exit, the
    text of the error when the tool could not be started.  The same failed
    run inside [get_transactions], with nothing at [DB_PATH] before or
    after it, is passed over and the empty list returned. *)
Theorem sync_transactions_reports (w : world) :
  (fst (sync_transactions R w) = Ok (PyDict [("status", PyStr "success")]) <->
   tool_outcome R w = Exited 0) /\
  (forall code, tool_outcome R w = Exited code -> code <> 0 ->
     fst (sync_transactions R w) =
     Raise (HTTPException 500 "Failed to sync. Ensure you are logged in." None)) /\
  (tool_outcome R w = NotStarted ->
     fst (sync_transactions R w) = Raise (HTTPException 500 "" (Some OSError))) /\
  (tool_outcome R w <> Exited 0 ->
     db_sqlite (files w) = DbAbsent ->
     db_sqlite (files (snd (subprocess_run R unfold_argv w))) = DbAbsent ->
     raises (fst (sync_transactions R w)) = true /\
     fst (get_transactions R w) = Ok (PyList [])).
Proof.
  rewrite sync_transactions_cases.
  refine (conj (conj _ _) (conj _ (conj _ _))).
  - destruct (tool_outcome R w) as [|code]; [discriminate|].
    destruct (code =? 0) eqn:E; [|discriminate].
    apply Z.eqb_eq in E. subst. reflexivity.
  - intros ->. reflexivity.
  - intros code -> Hcode. apply Z.eqb_neq in Hcode. rewrite Hcode. reflexivity.
  - intros ->. reflexivity.
  - intros Hfail Hdb Hafter. split.
    + destruct (tool_outcome R w) as [|code]; [reflexivity|].
      destruct (code =? 0) eqn:E; [|reflexivity].
      apply Z.eqb_eq in E. subst. congruence.
    + rewrite (get_transactions_absent w Hdb). cbv zeta. rewrite Hafter. reflexivity.
Qed.


(** *** [ORDER BY timestamp DESC LIMIT 50] *)

Lemma insert_desc_perm (r : row) (l : list row) :
  Permutation (insert_desc R r l) (r :: l).
Proof.
  induction l as [|x rest IH]; cbn [insert_desc]; [reflexivity|].
  destruct (sqlite_le R (col_timestamp x) (col_timestamp r)); [reflexivity|].
  rewrite IH. apply perm_swap.
Qed.

Lemma order_by_timestamp_desc_perm (rs : list row) :
  Permutation (order_by_timestamp_desc R rs) rs.
Proof.
  induction rs as [|r rest IH]; cbn [order_by_timestamp_desc fold_right]; [reflexivity|].
  rewrite insert_desc_perm. apply perm_skip. exact IH.
Qed.

Lemma insert_desc_sorted (r : row) (l : list row) :
  total_preorder (sqlite_le R) ->
  StronglySorted (later_first R) l ->
  StronglySorted (later_first R) (insert_desc R r l).
Proof.
  intros [Htotal Htrans] Hs.
  induction Hs as [|x rest Hrest IH Hx]; cbn [insert_desc].
  - constructor; constructor.
  - destruct (sqlite_le R (col_timestamp x) (col_timestamp r)) eqn:E.
    + constructor; [constructor; assumption|].
      constructor; [exact E|].
      eapply Forall_impl; [|exact Hx]. intros y Hy. unfold later_first in *. eauto.
    + constructor; [exact IH|].
      eapply Permutation_Forall; [symmetry; apply insert_desc_perm|].
      constructor; [|exact Hx].
      unfold later_first. destruct (Htotal (col_timestamp x) (col_timestamp r)); congruence.
Qed.

Lemma order_by_timestamp_desc_sorted (rs : list row) :
  total_preorder (sqlite_le R) ->
  StronglySorted (later_first R) (order_by_timestamp_desc R rs).
Proof.
  intros Hle. induction rs as [|r rest IH]; cbn [order_by_timestamp_desc fold_right].
  - constructor.
  - apply insert_desc_sorted; assumption.
Qed.

Lemma firstn_sorted {A : Type} (lt : A -> A -> Prop) (n : nat) (l : list A) :
  StronglySorted lt l -> StronglySorted lt (firstn n l).
Proof.
  intros Hs. revert n. induction Hs as [|x rest Hrest IH Hx]; intros [|n]; cbn [firstn];
    try constructor.
  - apply IH.
  - rewrite Forall_forall in *. intros y Hy. apply Hx.
    rewrite <- (firstn_skipn n rest). apply in_or_app. left. exact Hy.
Qed.

Lemma transaction_of_row_shape (r : row) : has_transaction_shape (transaction_of_row r).
Proof. reflexivity. Qed.

Lemma transaction_of_row_holds (r : row) : holds_row r (transaction_of_row r).
Proof. unfold holds_row. do 6 (split; [reflexivity|]). reflexivity. Qed.

Lemma transactions_hold_rows (rows : list row) :
  Forall2 holds_row rows (List.map transaction_of_row rows).
Proof.
  induction rows as [|r rows IH]; constructor; [apply transaction_of_row_holds|exact IH].
Qed.

Lemma transactions_have_shape (rows : list row) :
  Forall has_transaction_shape (List.map transaction_of_row rows).
Proof.
  apply Forall_forall. intros v Hv. apply in_map_iff in Hv.
  destruct Hv as [r [<- _]]. apply transaction_of_row_shape.
Qed.

(** Records of rows that are sorted are sorted by what they hold under
    [timestamp]. *)
Lemma transactions_later_first (rows : list row) :
  StronglySorted (later_first R) rows ->
  StronglySorted (later_record_first R) (List.map transaction_of_row rows).
Proof.
  induction 1 as [|r rows Hs IH Hr]; cbn [List.map]; constructor; [exact IH|].
  apply Forall_forall. intros v Hv. apply in_map_iff in Hv. destruct Hv as [r' [<- Hin]].
  rewrite Forall_forall in Hr. specialize (Hr r' Hin).
  exists (col_timestamp r), (col_timestamp r'). split; [reflexivity|]. split; [reflexivity|].
  exact Hr.
Qed.

(** C7.  With a database at [DB_PATH] that has a [transactions] table,
    [get_transactions] returns at most 50 records, each with exactly the
    keys [uuid], [amount], [current_balance], [timestamp], [type],
    [account], [merchant], each holding under these keys the columns of
    one row, and the [timestamp] of a record is no earlier than that of
    any record after it; when the table has the seven columns, the rows
    so returned are the first 50 of its rows sorted by timestamp, latest
    first. *)
Theorem get_transactions_recent (w : world) (table : transactions_table) :
  total_preorder (sqlite_le R) ->
  db_sqlite (files w) = Db table ->
  table <> NoTable ->
  exists rows out,
    fst (get_transactions R w) = Ok (PyList out) /\
    (List.length out <= 50)%nat /\
    Forall has_transaction_shape out /\
    Forall2 holds_row rows out /\
    StronglySorted (later_record_first R) out /\
    StronglySorted (later_first R) rows /\
    (forall stored, table = Rows stored ->
       exists sorted,
         Permutation sorted stored /\
         StronglySorted (later_first R) sorted /\
         rows = firstn 50 sorted).
Proof.
  intros Hle Hdb Htable.
  rewrite get_transactions_present by (rewrite Hdb; discriminate).
  unfold read_recent. rewrite Hdb.
  destruct table as [ | | stored]; [congruence| | ].
  - exists [], []. cbn [fst List.length].
    refine (conj eq_refl (conj _ (conj _ (conj _ (conj _ (conj _ _)))))); try constructor.
    + lia.
    + intros stored' H. discriminate.
  - assert (Hsorted : StronglySorted (later_first R) (firstn 50 (order_by_timestamp_desc R stored)))
      by apply firstn_sorted, order_by_timestamp_desc_sorted, Hle.
    exists (firstn 50 (order_by_timestamp_desc R stored)),
           (List.map transaction_of_row (firstn 50 (order_by_timestamp_desc R stored))).
    cbn [fst].
    refine (conj eq_refl (conj _ (conj _ (conj _ (conj _ (conj Hsorted _)))))).
    + rewrite length_map. apply firstn_le_length.
    + apply transactions_have_shape.
    + apply transactions_hold_rows.
    + apply transactions_later_first, Hsorted.
    + intros stored' H. inversion H; subst stored'.
      exists (order_by_timestamp_desc R stored).
      split; [apply order_by_timestamp_desc_perm|].
      split; [apply order_by_timestamp_desc_sorted, Hle|reflexivity].
Qed.

End Transactions.

(** ** Portfolio Valuator *)

Section Portfolio.

Variable R : runtime.

Lemma py_index_chars (s : string) (i : Z) (a : pyval) :
  py_index (chars s) i = Ok a -> exists c, a = PyStr c.
Proof.
  unfold py_index, chars.
  destruct (_ || _); [discriminate|].
  destruct (nth_error _ _) eqn:E; [|discriminate].
  intros H; inversion H; subst.
  apply nth_error_In in E. apply in_map_iff in E. destruct E as [c [E _]]. eauto.
Qed.

Lemma py_index_head {A : Type} (x : A) (rest : list A) : py_index (x :: rest) 0 = Ok x.
Proof. unfold py_index. cbn. reflexivity. Qed.

(** Close a case of [price_holding]: it cannot happen, or both sides are
    the same pair. *)
Ltac leaf :=
  intros;
  first [ discriminate
        | eexists; reflexivity
        | match goal with
          | H : py_index (chars _) _ = Ok _ |- _ =>
              apply py_index_chars in H; destruct H; discriminate
          end ].

(** A lookup that fails leaves the locals alone, whether the [try] body
    raises or just falls through. *)
Lemma price_holding_none (code : pyval) (units : float) (w : world) (l : locals) :
  price_lookup R code = None ->
  exists r, price_holding R code units (w, l) = (r, (looked_up R w code, l)).
Proof.
  unfold price_lookup, price_holding, looked_up, http_get, response_json, json_load.
  change ("https://api.mfapi.in/mf/" ++ fmt R code)%string with (feed_url R code).
  run.
  destruct (requests_get R _) as [|c text]; run; [eexists; reflexivity|].
  destruct (json_loads R text) as [data|]; run; [|eexists; reflexivity].
  destruct data as [ | b | i | x | s | items | feed]; builtins;
    try (intros _; repeat break_match; eexists; reflexivity).
  destruct (dict_lookup "data" feed) as [d|] eqn:Ed.
  2: { intros _. destruct feed; eexists; reflexivity. }
  destruct feed as [|kv feed']; [discriminate|].
  destruct d as [ | b | i | x | s | items | entries]; builtins; try leaf.
  - repeat break_match; leaf.
  - destruct items as [|latest rest]; builtins; [leaf|].
    rewrite py_index_head.
    repeat break_match; leaf.
  - repeat break_match; leaf.
Qed.

(** A lookup that succeeds appends the priced holding and adds the
    unrounded product to the running total. *)
Lemma price_holding_some (code : pyval) (units : float) (w : world) (l : locals)
      (nav : float) (name : pyval) :
  price_lookup R code = Some (nav, name) ->
  price_holding R code units (w, l) =
  total_value_add (PrimFloat.mul units nav)
    (looked_up R w code,
     mkLocals (portfolio l ++
               [PyDict [ ("scheme_code", code);
                         ("scheme_name", name);
                         ("units", PyFloat units);
                         ("nav", PyFloat nav);
                         ("current_value", PyFloat (round2 (PrimFloat.mul units nav))) ]])
              (total_value l)).
Proof.
  unfold price_lookup, price_holding, looked_up, http_get, response_json, json_load,
    portfolio_append.
  change ("https://api.mfapi.in/mf/" ++ fmt R code)%string with (feed_url R code).
  run.
  destruct (requests_get R _) as [|c text]; run; [discriminate|].
  destruct (json_loads R text) as [data|]; run; [|discriminate].
  destruct data as [ | b | i | x | s | items | feed]; try discriminate.
  destruct (dict_lookup "data" feed) as [d|] eqn:Ed; [|discriminate].
  destruct d as [ | b | i | x | s | items | entries]; try discriminate.
  destruct items as [|latest rest]; [discriminate|].
  destruct latest as [ | b | i | x | s | items | latest]; try discriminate.
  destruct (dict_lookup "meta" feed) as [m|] eqn:Em; [|discriminate].
  destruct m as [ | b | i | x | s | items | meta]; try discriminate.
  destruct (dict_lookup "nav" latest) as [quoted|] eqn:En; [|discriminate].
  destruct (dict_lookup "scheme_name" meta) as [nm|] eqn:Es; [|discriminate].
  destruct (py_float R quoted) as [nv|] eqn:Ef; [|discriminate].
  intros H; inversion H; subst nv nm; clear H.
  destruct feed as [|kv feed']; [discriminate|].
  builtins. rewrite Ed. builtins. rewrite py_index_head. builtins.
  rewrite En, Ef, Em. builtins. rewrite Es. run. reflexivity.
Qed.

Lemma holding_fields_some (h code : pyval) (units : float) :
  holding_fields R h = Some (code, units) ->
  py_getitem h (PyStr "scheme_code") = Ok code /\
  (let! u := py_getitem h (PyStr "units") in py_float R u) = Ok units.
Proof.
  unfold holding_fields.
  destruct h as [ | b | i | x | s | items | entries]; try discriminate.
  builtins.
  destruct (dict_lookup "scheme_code" entries) as [c|]; [|discriminate].
  destruct (dict_lookup "units" entries) as [u|]; [|discriminate].
  destruct (py_float R u) as [x|e] eqn:E; [|discriminate].
  intros H; inversion H; subst. split; reflexivity.
Qed.

Lemma holding_fields_none (h : pyval) :
  holding_fields R h = None ->
  (exists e, py_getitem h (PyStr "scheme_code") = Raise e) \/
  (exists code e, py_getitem h (PyStr "scheme_code") = Ok code /\
                  (let! u := py_getitem h (PyStr "units") in py_float R u) = Raise e).
Proof.
  unfold holding_fields.
  destruct h as [ | b | i | x | s | items | entries]; builtins; eauto.
  destruct (dict_lookup "scheme_code" entries) as [c|]; [|eauto].
  destruct (dict_lookup "units" entries) as [u|]; [|eauto].
  destruct (py_float R u) as [x|e] eqn:E; [discriminate|eauto].
Qed.

Lemma py_add_running (t : pyval) (v : float) :
  running t -> exists x, py_add t (PyFloat v) = Ok (PyFloat x).
Proof.
  intros [-> | [x ->]]; eexists; reflexivity.
Qed.

(** One turn of the loop on a holding that has its fields never raises:
    what the [try] body raises, the handler prints. *)
Lemma priced_or_skipped (code : pyval) (units : float) (s : world * locals) :
  exists s',
    try_except (price_holding R code units)
               (fun e => in_world (emit (PrintedFetchError code e))) s = (Ok tt, s').
Proof.
  run. destruct (price_holding R code units s) as [[[]|e] s']; run; eauto.
Qed.

(** The loop over holdings that all have their fields: the priced ones
    are appended in order and their products added, from the left, to the
    running total; nothing on disk changes. *)
Lemma for_each_holding_priced (hs : list pyval) :
  forall (w : world) (l : locals),
    running (total_value l) ->
    forallb (well_formed_holding R) hs = true ->
    exists w' t,
      for_each_holding R hs (w, l) =
      (Ok tt, (w', mkLocals (portfolio l ++
                             List.map (Priced_Holding R) (filter (lookup_succeeded R) hs)) t)) /\
      sum_from (total_value l)
               (List.map (current_value R) (filter (lookup_succeeded R) hs)) = Ok t /\
      running t /\
      files w' = files w.
Proof.
  induction hs as [|h rest IH]; intros w l Hrun Hwf.
  - exists w, (total_value l). cbn. rewrite app_nil_r. destruct l; auto.
  - cbn [forallb] in Hwf. apply andb_true_iff in Hwf. destruct Hwf as [Hh Hrest].
    unfold well_formed_holding in Hh.
    destruct (holding_fields R h) as [[code units]|] eqn:Hf; [|discriminate].
    destruct (holding_fields_some h code units Hf) as [Hcode Hunits].
    cbn [for_each_holding filter].
    unfold bind at 1. unfold lift at 1. rewrite Hcode.
    unfold bind at 1. unfold lift at 1. rewrite Hunits.
    unfold bind at 1. unfold try_except.
    destruct (price_lookup R code) as [[nav name]|] eqn:Hp.
    + assert (Hok : lookup_succeeded R h = true)
        by (unfold lookup_succeeded; rewrite Hf, Hp; reflexivity).
      assert (Hentry : Priced_Holding R h =
                       PyDict [ ("scheme_code", code);
                                ("scheme_name", name);
                                ("units", PyFloat units);
                                ("nav", PyFloat nav);
                                ("current_value",
                                 PyFloat (round2 (PrimFloat.mul units nav))) ])
        by (unfold Priced_Holding; rewrite Hf, Hp; reflexivity).
      assert (Hvalue : current_value R h = PrimFloat.mul units nav)
        by (unfold current_value; rewrite Hf, Hp; reflexivity).
      rewrite Hok, (price_holding_some code units w l nav name Hp), <- Hentry, <- Hvalue.
      destruct (py_add_running (total_value l) (current_value R h) Hrun) as [x Hx].
      unfold total_value_add. cbn [fst snd portfolio total_value]. rewrite Hx.
      assert (Hrun' : running (PyFloat x)) by (right; eauto).
      destruct (IH (looked_up R w code)
                   (mkLocals (portfolio l ++ [Priced_Holding R h]) (PyFloat x))
                   Hrun' Hrest)
        as (w' & t & Hloop & Hsum & Ht & Hfiles).
      exists w', t. rewrite Hloop. cbn [portfolio total_value map sum_from] in *.
      rewrite <- app_assoc. cbn [app]. rewrite Hx. cbn [and_then]. auto.
    + assert (Hno : lookup_succeeded R h = false)
        by (unfold lookup_succeeded; rewrite Hf, Hp; reflexivity).
      rewrite Hno.
      destruct (price_holding_none code units w l Hp) as [r Hr]. rewrite Hr.
      destruct r as [[]|e].
      * destruct (IH (looked_up R w code) l Hrun Hrest)
          as (w' & t & Hloop & Hsum & Ht & Hfiles).
        exists w', t. rewrite Hloop. auto.
      * unfold in_world, emit, modify. cbn [fst snd].
        destruct (IH (mkWorld (files (looked_up R w code))
                              (log (looked_up R w code) ++ [PrintedFetchError code e]))
                     l Hrun Hrest)
          as (w' & t & Hloop & Hsum & Ht & Hfiles).
        exists w', t. rewrite Hloop. auto.
Qed.

(** The loop over holdings one of which lacks its fields raises. *)
Lemma for_each_holding_malformed (hs : list pyval) :
  forall (s : world * locals),
    forallb (well_formed_holding R) hs = false ->
    exists e s', for_each_holding R hs s = (Raise e, s').
Proof.
  induction hs as [|h rest IH]; intros s Hwf; [discriminate|].
  cbn [forallb] in Hwf. cbn [for_each_holding].
  unfold well_formed_holding in Hwf at 1.
  destruct (holding_fields R h) as [[code units]|] eqn:Hf.
  - destruct (holding_fields_some h code units Hf) as [Hcode Hunits].
    unfold bind at 1. unfold lift at 1. rewrite Hcode.
    unfold bind at 1. unfold lift at 1. rewrite Hunits.
    unfold bind at 1.
    destruct (priced_or_skipped code units s) as [s' Hs]. rewrite Hs.
    apply IH. exact Hwf.
  - destruct (holding_fields_none h Hf) as [[e He]|(code & e & Hcode & He)].
    + unfold bind at 1. unfold lift at 1. rewrite He. eauto.
    + unfold bind at 1. unfold lift at 1. rewrite Hcode.
      unfold bind at 1. unfold lift at 1. rewrite He. eauto.
Qed.


Lemma sum_from_float (x : float) (vs : list float) :
  sum_from (PyFloat x) vs = Ok (PyFloat (fold_left PrimFloat.add vs x)).
Proof.
  revert x. induction vs as [|v rest IH]; intros x; cbn [sum_from fold_left]; [reflexivity|].
  cbn [py_add and_then]. apply IH.
Qed.

(** The sum, rounded, is [rounded_sum]. *)
Lemma rounded_sum_is_round_of_sum (vs : list float) :
  (let! s := py_sum vs in py_round2 s) = Ok (rounded_sum vs).
Proof.
  unfold py_sum, rounded_sum. destruct vs as [|v rest]; [reflexivity|].
  cbn [sum_from]. change (py_add (PyInt 0) (PyFloat v))
    with (Ok (A := pyval) (PyFloat (PrimFloat.add PrimFloat.zero v))).
  cbn [and_then]. rewrite sum_from_float. reflexivity.
Qed.

(** [get_portfolio] is the loop over what [load_holdings] returned,
    started with an empty portfolio and the integer 0. *)
Lemma get_portfolio_loop (w : world) (hs : list pyval) :
  fst (load_holdings R w) = Ok (PyList hs) ->
  get_portfolio R w =
  match for_each_holding R hs (w, mkLocals [] (PyInt 0)) with
  | (Ok _, s) =>
      (let! total := py_round2 (total_value (snd s)) in
       Ok (PyDict [("portfolio", PyList (portfolio (snd s))); ("total_value", total)]),
       fst s)
  | (Raise e, s) => (Raise e, fst s)
  end.
Proof.
  intros Hload. destruct (load_holdings_returns R w) as [v Hv].
  rewrite Hv in Hload. cbn [fst] in Hload. inversion Hload; subst v; clear Hload.
  unfold get_portfolio. run. rewrite Hv. run. builtins.
  destruct (for_each_holding R hs (w, mkLocals [] (PyInt 0))) as [[[]|e] s]; run;
    [|reflexivity].
  destruct (py_round2 (total_value (snd s))); reflexivity.
Qed.

Lemma price_lookup_fails (code : pyval) :
  requests_get R (feed_url R code) = NoReply \/
  (exists status text,
     requests_get R (feed_url R code) = Reply status text /\
     (json_loads R text = None \/
      exists feed, json_loads R text = Some (PyDict feed) /\
                   dict_lookup "data" feed = Some (PyList []))) ->
  price_lookup R code = None.
Proof.
  unfold price_lookup.
  intros [-> | (status & text & -> & [-> | (feed & -> & ->)])]; reflexivity.
Qed.

(** C1.  On a holdings file whose elements all have a [scheme_code] and
    [units] that [float()] accepts, [get_portfolio] returns, in the order
    of the file, the Priced Holding of exactly the holdings whose price
    lookup succeeded, each with [current_value = round(units * nav, 2)],
    and as [total_value] the sum, from the left, of the unrounded products
    [units * nav] of those holdings, rounded to two decimals.  A holding
    whose lookup gets no reply, a reply that is no JSON, or a feed with no
    price point is not among them.  Nothing on disk changes. *)
Theorem get_portfolio_values_priced_holdings (w : world) (hs : list pyval) :
  fst (load_holdings R w) = Ok (PyList hs) ->
  forallb (well_formed_holding R) hs = true ->
  let priced := filter (lookup_succeeded R) hs in
  exists total,
    fst (get_portfolio R w) =
    Ok (PyDict [ ("portfolio", PyList (List.map (Priced_Holding R) priced));
                 ("total_value", total) ]) /\
    (let! s := py_sum (List.map (current_value R) priced) in py_round2 s) = Ok total /\
    Forall (fun h => exists code units nav name,
                holding_fields R h = Some (code, units) /\
                price_lookup R code = Some (nav, name) /\
                current_value R h = PrimFloat.mul units nav /\
                Priced_Holding R h =
                PyDict [ ("scheme_code", code);
                         ("scheme_name", name);
                         ("units", PyFloat units);
                         ("nav", PyFloat nav);
                         ("current_value", PyFloat (round2 (PrimFloat.mul units nav))) ])
           priced /\
    (forall h code units,
       In h hs -> holding_fields R h = Some (code, units) ->
       requests_get R (feed_url R code) = NoReply \/
       (exists status text,
          requests_get R (feed_url R code) = Reply status text /\
          (json_loads R text = None \/
           exists feed, json_loads R text = Some (PyDict feed) /\
                        dict_lookup "data" feed = Some (PyList []))) ->
       ~ In h priced) /\
    files (snd (get_portfolio R w)) = files w.
Proof.
  intros Hload Hwf priced.
  destruct (for_each_holding_priced hs w (mkLocals [] (PyInt 0)) (or_introl eq_refl) Hwf)
    as (w' & t & Hloop & Hsum & Ht & Hfiles).
  cbn [portfolio total_value app] in Hloop, Hsum.
  rewrite (get_portfolio_loop w hs Hload), Hloop. cbn [fst snd portfolio total_value].
  exists (rounded_sum (List.map (current_value R) priced)).
  assert (Hround : py_round2 t = Ok (rounded_sum (List.map (current_value R) priced))).
  { pose proof (rounded_sum_is_round_of_sum (List.map (current_value R) priced)) as Hr.
    unfold py_sum in Hr. fold priced in Hsum. rewrite Hsum in Hr. exact Hr. }
  rewrite Hround. cbn [and_then fst].
  split; [reflexivity|].
  split; [apply rounded_sum_is_round_of_sum|].
  split; [|split; [|exact Hfiles]].
  - apply Forall_forall. intros h Hin. apply filter_In in Hin. destruct Hin as [_ Hok].
    unfold lookup_succeeded in Hok. unfold current_value, Priced_Holding.
    destruct (holding_fields R h) as [[code units]|] eqn:Hf; [|discriminate].
    destruct (price_lookup R code) as [[nav name]|] eqn:Hp; [|discriminate].
    exists code, units, nav, name. repeat split. exact Hp.
  - intros h code units Hin Hf Hfail Hpriced.
    apply filter_In in Hpriced. destruct Hpriced as [_ Hok].
    unfold lookup_succeeded in Hok. rewrite Hf, (price_lookup_fails code Hfail) in Hok.
    discriminate.
Qed.

(** C2, as the code has it.  With an empty holdings list the portfolio is
    the empty list and the total is the integer 0, which compares equal to
    the float 0.0 and is not a float. *)
Theorem get_portfolio_of_nothing (w : world) :
  fst (load_holdings R w) = Ok (PyList []) ->
  fst (get_portfolio R w) =
  Ok (PyDict [("portfolio", PyList []); ("total_value", PyInt 0)]) /\
  py_eqb (PyInt 0) (PyFloat 0) = true /\
  PyInt 0 <> PyFloat 0.
Proof.
  intros Hload. rewrite (get_portfolio_loop w [] Hload).
  split; [reflexivity|]. split; [reflexivity|discriminate].
Qed.

(** C10.  On a holdings file that parses to a list, [get_portfolio]
    returns when every element has a [scheme_code] and [units] that
    [float()] accepts, and raises as soon as one has not: the fields are
    read before the [try].  A list of strings raises [TypeError]; units
    that are a word [float()] refuses raise [ValueError]. *)
Theorem get_portfolio_needs_well_formed_holdings (w : world) (hs : list pyval) :
  fst (load_holdings R w) = Ok (PyList hs) ->
  (forallb (well_formed_holding R) hs = true ->
   exists v, fst (get_portfolio R w) = Ok v) /\
  (forallb (well_formed_holding R) hs = false ->
   exists e, fst (get_portfolio R w) = Raise e) /\
  (forall s rest, hs = PyStr s :: rest ->
   fst (get_portfolio R w) = Raise TypeError) /\
  (forall code word rest,
     hs = PyDict [("scheme_code", code); ("units", PyStr word)] :: rest ->
     float_of_str R word = None ->
     fst (get_portfolio R w) = Raise ValueError).
Proof.
  intros Hload. rewrite (get_portfolio_loop w hs Hload).
  refine (conj _ (conj _ (conj _ _))).
  - intros Hwf.
    destruct (for_each_holding_priced hs w (mkLocals [] (PyInt 0)) (or_introl eq_refl) Hwf)
      as (w' & t & Hloop & _ & Ht & _).
    rewrite Hloop. cbn [fst snd total_value].
    destruct Ht as [-> | [x ->]]; cbn; eauto.
  - intros Hwf.
    destruct (for_each_holding_malformed hs (w, mkLocals [] (PyInt 0)) Hwf)
      as (e & s' & Hloop).
    rewrite Hloop. cbn [fst]. eauto.
  - intros s rest ->. reflexivity.
  - intros code word rest -> Hword. cbn [for_each_holding]. run. builtins.
    cbn [dict_lookup String.eqb Ascii.eqb Bool.eqb]. unfold py_float. rewrite Hword.
    reflexivity.
Qed.

(** *** Through the API *)

Lemma stored_holdings_well_formed (holdings : list Holding) :
  forallb (well_formed_holding R)
          (List.map (fun h => PyDict [("scheme_code", PyStr (scheme_code h));
                                      ("units", PyFloat (units h))]) holdings) = true.
Proof.
  induction holdings as [|h rest IH]; [reflexivity|].
  cbn [List.map forallb]. rewrite IH. reflexivity.
Qed.

(** Whatever [POST /api/holdings] stored, [GET /api/portfolio] values
    without raising, provided [json] reads back what it wrote. *)
Lemma get_portfolio_after_set_holdings (w : world) (holdings : list Holding) :
  json_loads R (json_dumps R (stored_holdings holdings)) = Some (stored_holdings holdings) ->
  exists v, fst (get_portfolio R (snd (set_holdings_api R holdings w))) = Ok v.
Proof.
  intros Hrt.
  pose proof (set_then_get_holdings R w holdings Hrt) as Hload.
  unfold get_holdings_api, stored_holdings in Hload.
  rewrite (get_portfolio_loop _ _ Hload).
  destruct (for_each_holding_priced _ (snd (set_holdings_api R holdings w))
              (mkLocals [] (PyInt 0)) (or_introl eq_refl)
              (stored_holdings_well_formed holdings))
    as (w' & t & Hloop & _ & Ht & _).
  rewrite Hloop. cbn [fst snd total_value].
  destruct Ht as [-> | [x ->]]; cbn; eauto.
Qed.

(** *** One lookup per holding *)

Lemma lookups_app (l r : list event) : lookups (l ++ r) = lookups l ++ lookups r.
Proof. unfold lookups. apply flat_map_app. Qed.

(** Whatever comes of it, pricing one holding asks the feed once. *)
Lemma price_holding_asks_once (code : pyval) (units : float) (w : world) (l : locals) :
  exists r l', price_holding R code units (w, l) = (r, (looked_up R w code, l')).
Proof.
  destruct (price_lookup R code) as [[nav name]|] eqn:Hp.
  - rewrite (price_holding_some code units w l nav name Hp). unfold total_value_add.
    cbn [fst snd]. destruct (py_add _ _); eauto.
  - destruct (price_holding_none code units w l Hp) as [r Hr]. eauto.
Qed.

Lemma for_each_holding_lookups (hs : list pyval) :
  forall (w : world) (l : locals),
    forallb (well_formed_holding R) hs = true ->
    lookups (log (fst (snd (for_each_holding R hs (w, l))))) =
    lookups (log w) ++ List.map (holding_url R) hs.
Proof.
  induction hs as [|h rest IH]; intros w l Hwf.
  - cbn. rewrite app_nil_r. reflexivity.
  - cbn [forallb] in Hwf. apply andb_true_iff in Hwf. destruct Hwf as [Hh Hrest].
    unfold well_formed_holding in Hh. unfold holding_url at 1. cbn [List.map].
    destruct (holding_fields R h) as [[code units]|] eqn:Hf; [|discriminate].
    destruct (holding_fields_some h code units Hf) as [Hcode Hunits].
    cbn [for_each_holding].
    unfold bind at 1. unfold lift at 1. rewrite Hcode.
    unfold bind at 1. unfold lift at 1. rewrite Hunits.
    unfold bind at 1. unfold try_except.
    destruct (price_holding_asks_once code units w l) as (r & l' & Hr). rewrite Hr.
    destruct r as [[]|e].
    + rewrite (IH _ _ Hrest). unfold looked_up. cbn [log].
      rewrite lookups_app, <- app_assoc. reflexivity.
    + unfold in_world, emit, modify. cbn [fst snd].
      rewrite (IH _ _ Hrest). unfold looked_up. cbn [log].
      rewrite !lookups_app, <- !app_assoc. reflexivity.
Qed.

(** Each holding is looked up exactly once, in the order of the file. *)
Lemma get_portfolio_looks_up_each_once (w : world) (hs : list pyval) :
  fst (load_holdings R w) = Ok (PyList hs) ->
  forallb (well_formed_holding R) hs = true ->
  lookups (log (snd (get_portfolio R w))) = lookups (log w) ++ List.map (holding_url R) hs.
Proof.
  intros Hload Hwf. rewrite (get_portfolio_loop w hs Hload).
  rewrite <- (for_each_holding_lookups hs w (mkLocals [] (PyInt 0)) Hwf).
  destruct (for_each_holding R hs (w, mkLocals [] (PyInt 0))) as [[[]|e] s]; reflexivity.
Qed.

End Portfolio.

(** * Further properties *)

(** ** Auth *)

Section Auth.

Variable R : runtime.

Lemma plus_prefix_of_prefixed (number : string) :
  String.prefix "+" ("+91" ++ number)%string = true.
Proof. reflexivity. Qed.

Lemma with_country_code_prefixed (number : string) :
  String.prefix "+" (with_country_code number) = true.
Proof.
  unfold with_country_code.
  destruct (String.prefix "+" number) eqn:E; [exact E|apply plus_prefix_of_prefixed].
Qed.

Lemma with_country_code_once (number : string) :
  with_country_code (with_country_code number) = with_country_code number.
Proof.
  unfold with_country_code at 1. rewrite with_country_code_prefixed. reflexivity.
Qed.

(** A phone number given with and without the country code is the same
    request: [fold_login] and [fold_verify] do to [+91n] what they do to
    [n], for a number [n] that has no [+] in front; and a number that has
    one is sent as it is, by both, and only such a number. *)
Theorem country_code_makes_no_difference (number code : string) (w : world) :
  fold_login R (mkLoginRequest (with_country_code number)) w =
  fold_login R (mkLoginRequest number) w /\
  fold_verify R (mkVerifyRequest (with_country_code number) code) w =
  fold_verify R (mkVerifyRequest number code) w /\
  (String.prefix "+" number = false ->
   fold_login R (mkLoginRequest ("+91" ++ number)) w = fold_login R (mkLoginRequest number) w /\
   fold_verify R (mkVerifyRequest ("+91" ++ number) code) w =
   fold_verify R (mkVerifyRequest number code) w) /\
  (login_payload (mkLoginRequest number) =
   PyDict [("phone", PyStr number); ("channel", PyStr "sms")] <->
   String.prefix "+" number = true) /\
  (verify_payload (mkVerifyRequest number code) =
   PyDict [("phone", PyStr number); ("otp", PyStr code)] <->
   String.prefix "+" number = true).
Proof.
  assert (Hlogin : forall n, with_country_code n = with_country_code number ->
            fold_login R (mkLoginRequest n) w = fold_login R (mkLoginRequest number) w).
  { intros n Hn. unfold fold_login. cbn [login_phone]. rewrite Hn. reflexivity. }
  assert (Hverify : forall n, with_country_code n = with_country_code number ->
            fold_verify R (mkVerifyRequest n code) w =
            fold_verify R (mkVerifyRequest number code) w).
  { intros n Hn. unfold fold_verify. cbn [phone otp]. rewrite Hn. reflexivity. }
  assert (Hfixed : with_country_code number = number -> String.prefix "+" number = true).
  { intros Hsame. rewrite <- Hsame. apply with_country_code_prefixed. }
  refine (conj _ (conj _ (conj _ (conj (conj _ _) (conj _ _))))).
  - apply Hlogin, with_country_code_once.
  - apply Hverify, with_country_code_once.
  - intros E.
    assert (Hn : with_country_code ("+91" ++ number) = with_country_code number).
    { unfold with_country_code. rewrite plus_prefix_of_prefixed, E. reflexivity. }
    split; [apply Hlogin|apply Hverify]; exact Hn.
  - unfold login_payload. cbn [login_phone].
    intros H. apply Hfixed. congruence.
  - unfold login_payload, with_country_code. cbn [login_phone].
    intros E. rewrite E. reflexivity.
  - unfold verify_payload. cbn [phone otp].
    intros H. apply Hfixed. congruence.
  - unfold verify_payload, with_country_code. cbn [phone otp].
    intros E. rewrite E. reflexivity.
Qed.

Lemma fold_login_cases (req : LoginRequest) (w : world) :
  fold_login R req w =
  (match requests_post R login_url (login_payload req) with
   | NoReply => Raise (HTTPException 400 "" (Some RequestException))
   | Reply code text =>
       if error_status code then Raise (HTTPException 400 "" (Some (HTTPError code)))
       else Ok (PyDict [("status", PyStr "otp_sent")])
   end,
   mkWorld (files w) (log w ++ [Posted login_url (login_payload req)])).
Proof.
  unfold fold_login, http_post, raise_for_status, error_status.
  change "https://api.fold.money/v1/auth/otp" with login_url.
  change (PyDict [("phone", PyStr (with_country_code (login_phone req)));
                  ("channel", PyStr "sms")]) with (login_payload req).
  run.
  destruct (requests_post R login_url (login_payload req)) as [|code text]; run;
    [reflexivity|].
  destruct ((400 <=? code) && (code <? 600)); reflexivity.
Qed.

(** [fold_login] reports [otp_sent] exactly when the identity service
    answers with a status outside 400..599, whatever the body of the
    answer; anything else is an [HTTPException] with status 400.  Either
    way it has posted once, a phone number that starts with [+], and
    written no file. *)
Theorem fold_login_reports (req : LoginRequest) (w : world) :
  let out := fold_login R req w in
  (fst out = Ok (PyDict [("status", PyStr "otp_sent")]) <->
   exists code text,
     requests_post R login_url (login_payload req) = Reply code text /\
     error_status code = false) /\
  (forall v, fst out = Ok v -> v = PyDict [("status", PyStr "otp_sent")]) /\
  (forall e, fst out = Raise e -> exists cause, e = HTTPException 400 "" (Some cause)) /\
  files (snd out) = files w /\
  log (snd out) = log w ++ [Posted login_url (login_payload req)] /\
  (exists number, py_get (login_payload req) "phone" PyNone = Ok (PyStr number) /\
                  String.prefix "+" number = true).
Proof.
  cbv zeta. rewrite fold_login_cases. cbn [fst snd files log].
  refine (conj (conj _ _) (conj _ (conj _ (conj eq_refl (conj eq_refl _))))).
  - destruct (requests_post R login_url (login_payload req)) as [|code text];
      [discriminate|].
    destruct (error_status code) eqn:E; [discriminate|]. eauto.
  - intros (code & text & -> & ->). reflexivity.
  - intros v. destruct (requests_post R login_url (login_payload req)) as [|code text];
      [discriminate|].
    destruct (error_status code); [discriminate|]. intros H; inversion H; reflexivity.
  - intros e. destruct (requests_post R login_url (login_payload req)) as [|code text].
    + intros H; inversion H; eauto.
    + destruct (error_status code); [|discriminate]. intros H; inversion H; eauto.
  - exists (with_country_code (login_phone req)). split; [reflexivity|].
    apply with_country_code_prefixed.
Qed.

(** Whatever comes of it, [fold_verify] has posted once and has touched
    neither the holdings nor the database; the phone number it sent starts
    with [+]. *)
Theorem fold_verify_posts_once (req : VerifyRequest) (w : world) :
  let out := fold_verify R req w in
  log (snd out) = log w ++ [Posted verify_url (verify_payload req)] /\
  holdings_json (files (snd out)) = holdings_json (files w) /\
  db_sqlite (files (snd out)) = db_sqlite (files w) /\
  (exists number, py_get (verify_payload req) "phone" PyNone = Ok (PyStr number) /\
                  String.prefix "+" number = true).
Proof.
  cbv zeta.
  assert (Hphone : exists number,
             py_get (verify_payload req) "phone" PyNone = Ok (PyStr number) /\
             String.prefix "+" number = true).
  { eexists. split; [reflexivity|].
    destruct (String.prefix "+" (phone req)) eqn:E; unfold with_country_code; rewrite E;
      [exact E|reflexivity]. }
  destruct (fold_verify_outcome R req w)
    as [[cause Hc]|(code & text & body & data & a & r & u & _ & _ & _ & _ & _ & _ & _ & Hc)];
    rewrite Hc; auto.
Qed.

Lemma py_eqb_none (v : pyval) : py_eqb v PyNone = true -> v = PyNone.
Proof. destruct v; cbn [py_eqb]; intros H; try discriminate; reflexivity. Qed.

(** What [==] with the written record says about a loaded one, for
    tokens of any type. *)
Lemma loaded_config_token (access refresh uuid loaded : pyval) :
  py_eqb (unfold_config R access refresh uuid) loaded = true ->
  exists token,
    (let! t := py_get loaded "token" (PyDict []) in py_get t "access" PyNone) = Ok token /\
    py_eqb access token = true.
Proof.
  unfold unfold_config.
  destruct loaded as [ | b | i | x | s | items | entries]; try discriminate.
  cbn [py_eqb]. intros H.
  apply andb_true_iff in H. destruct H as [_ H].
  apply andb_true_iff in H. destruct H as [H _].
  cbn [py_get and_then].
  destruct (dict_lookup "token" entries) as [token|]; [|discriminate].
  destruct token as [ | b | i | x | s | items | inner]; try discriminate.
  cbn [py_eqb] in H.
  apply andb_true_iff in H. destruct H as [_ H].
  apply andb_true_iff in H. destruct H as [H _].
  cbn [py_get and_then].
  destruct (dict_lookup "access" inner) as [a|]; [|discriminate].
  exists a. split; [reflexivity|exact H].
Qed.

(** A verification that succeeds logs the user in.  When [fold_verify]
    returns, it returns [success], and from then on [get_unfold_token]
    returns a value equal to the access token of the reply and
    [fold_status] says [logged_in: true], provided [yaml] loads a record
    equal to the one it dumped.  The reply is one with [data], with an
    [access_token] and a [refresh_token] in it, and with a [user_meta]
    that [uuid] can be asked of: the hypotheses name them. *)
Theorem fold_verify_logs_in (req : VerifyRequest) (w : world) (code : Z) (text : string)
        (body data access refresh user_meta uuid loaded v : pyval) :
  requests_post R verify_url (verify_payload req) = Reply code text ->
  json_loads R text = Some body ->
  py_get body "data" (PyDict []) = Ok data ->
  py_get data "access_token" PyNone = Ok access ->
  py_get data "refresh_token" PyNone = Ok refresh ->
  py_get data "user_meta" (PyDict []) = Ok user_meta ->
  py_get user_meta "uuid" PyNone = Ok uuid ->
  yaml_safe_load R (yaml_dump R (unfold_config R access refresh uuid)) = Some loaded ->
  py_eqb (unfold_config R access refresh uuid) loaded = true ->
  let out := fold_verify R req w in
  fst out = Ok v ->
  v = PyDict [("status", PyStr "success")] /\
  unfold_config_yaml (files (snd out)) =
  Some (yaml_dump R (unfold_config R access refresh uuid)) /\
  (exists token, fst (get_unfold_token R (snd out)) = Ok token /\
                 py_eqb access token = true) /\
  fst (fold_status R (snd out)) = Ok (PyDict [("logged_in", PyBool true)]).
Proof.
  intros Hreply Hjson Hdata Hacc Href Hmeta Huuid Hload Heq out Hok.
  assert (Hout : out = (Ok (PyDict [("status", PyStr "success")]),
                        snd (save_unfold_config R access refresh uuid (posted req w))) /\
                 py_truthy access = true).
  { subst out. revert Hok.
    unfold fold_verify, http_post, raise_for_status, response_json, json_load, posted,
      save_unfold_config.
    change "https://api.fold.money/v1/auth/otp/verify" with verify_url.
    change (PyDict [("phone", PyStr (with_country_code (phone req))); ("otp", PyStr (otp req))])
      with (verify_payload req).
    run. rewrite Hreply. run.
    destruct ((400 <=? code) && (code <? 600)); run; [discriminate|].
    rewrite Hjson. run. rewrite Hdata, Hacc, Href, Hmeta, Huuid.
    destruct (py_truthy access) eqn:Hta; run; [|discriminate].
    destruct (py_truthy refresh) eqn:Htr; run; [|discriminate].
    intros _. split; reflexivity. }
  destruct Hout as [Hout Hta]. rewrite Hout in *. cbn [fst snd] in *.
  destruct (loaded_config_token access refresh uuid loaded Heq) as (token & Htoken & Hsame).
  assert (Htok : get_unfold_token R
                   (snd (save_unfold_config R access refresh uuid (posted req w))) =
                 (Ok token, snd (save_unfold_config R access refresh uuid (posted req w)))).
  { rewrite save_unfold_config_writes. cbn [snd].
    erewrite get_unfold_token_present by reflexivity.
    unfold yaml_load. rewrite Hload. cbn [and_then]. rewrite Htoken. reflexivity. }
  refine (conj _ (conj _ (conj _ _))).
  - congruence.
  - rewrite save_unfold_config_writes. reflexivity.
  - exists token. rewrite Htok. auto.
  - unfold fold_status, bind. rewrite Htok. cbn [fst].
    destruct token; try reflexivity.
    apply py_eqb_none in Hsame. subst access. discriminate.
Qed.

(** [get_unfold_token] never raises and changes nothing.  It returns
    [None] when the token file is missing, is no YAML, holds something
    that is no mapping, or holds a mapping without [token]; otherwise the
    [access] entry of [token] as it is, the empty string included, and
    then [fold_status] says [logged_in: true]. *)
Theorem get_unfold_token_fail_open (w : world) :
  (exists v, get_unfold_token R w = (Ok v, w)) /\
  (exists b, fold_status R w = (Ok (PyDict [("logged_in", PyBool b)]), w)) /\
  (unfold_config_yaml (files w) = None -> get_unfold_token R w = (Ok PyNone, w)) /\
  (forall text,
     unfold_config_yaml (files w) = Some text ->
     (yaml_safe_load R text = None -> get_unfold_token R w = (Ok PyNone, w)) /\
     (forall loaded, yaml_safe_load R text = Some loaded ->
        (forall entries, loaded <> PyDict entries) ->
        get_unfold_token R w = (Ok PyNone, w)) /\
     (forall entries, yaml_safe_load R text = Some (PyDict entries) ->
        dict_lookup "token" entries = None ->
        get_unfold_token R w = (Ok PyNone, w)) /\
     (forall entries inner token,
        yaml_safe_load R text = Some (PyDict entries) ->
        dict_lookup "token" entries = Some (PyDict inner) ->
        dict_lookup "access" inner = Some token ->
        get_unfold_token R w = (Ok token, w) /\
        (token <> PyNone ->
         fold_status R w = (Ok (PyDict [("logged_in", PyBool true)]), w)))).
Proof.
  refine (conj (get_unfold_token_returns R w) (conj _ (conj (get_unfold_token_missing R w) _))).
  - destruct (get_unfold_token_returns R w) as [v Hv].
    unfold fold_status, bind. rewrite Hv. eexists. reflexivity.
  - intros text Hfile.
    pose proof (get_unfold_token_present R w text Hfile) as Hget. unfold yaml_load in Hget.
    refine (conj _ (conj _ (conj _ _))).
    + intros Hyaml. rewrite Hyaml in Hget. exact Hget.
    + intros loaded Hyaml Hno. rewrite Hyaml in Hget. rewrite Hget. cbn [and_then].
      destruct loaded; try reflexivity. exfalso. eapply Hno. reflexivity.
    + intros entries Hyaml Hnone. rewrite Hyaml in Hget. rewrite Hget.
      cbn [and_then py_get]. rewrite Hnone. reflexivity.
    + intros entries inner token Hyaml Htoken Haccess.
      rewrite Hyaml in Hget. cbn [and_then py_get] in Hget. rewrite Htoken in Hget.
      cbn [and_then py_get] in Hget. rewrite Haccess in Hget.
      split; [exact Hget|]. intros Hsome.
      unfold fold_status, bind. rewrite Hget. destruct token; try reflexivity. congruence.
Qed.

(** *** The device hash *)

Lemma length_string_of_list_ascii (l : list ascii) :
  String.length (string_of_list_ascii l) = List.length l.
Proof. induction l as [|c l IH]; cbn; [reflexivity|rewrite IH; reflexivity]. Qed.

Lemma hex_length (bs : list Byte.byte) : String.length (hex bs) = (2 * List.length bs)%nat.
Proof.
  unfold hex. rewrite length_string_of_list_ascii.
  induction bs as [|b bs IH]; [reflexivity|].
  cbn [flat_map List.length app]. rewrite IH. lia.
Qed.

Lemma hex_digits_of_byte (b : Byte.byte) :
  lower_hex (hex_digit (Nat.div (Byte.to_nat b) 16)) = true /\
  lower_hex (hex_digit (Nat.modulo (Byte.to_nat b) 16)) = true.
Proof. destruct b; vm_compute; split; reflexivity. Qed.

Lemma hex_lower (bs : list Byte.byte) :
  forallb lower_hex (list_ascii_of_string (hex bs)) = true.
Proof.
  unfold hex. rewrite list_ascii_of_string_of_list_ascii.
  induction bs as [|b bs IH]; [reflexivity|].
  cbn [flat_map app forallb].
  destruct (hex_digits_of_byte b) as [-> ->]. exact IH.
Qed.

(** The record [save_unfold_config] writes names the device
    [python-client-] followed by eight digits out of [0-9a-f], whatever
    the tokens and whatever four bytes [os.urandom] gave; the tokens and
    the user id are stored as they came. *)
Theorem device_hash_shape (access refresh uuid : pyval) :
  List.length (urandom R 4) = 4%nat ->
  let record := unfold_config R access refresh uuid in
  (exists digits,
     py_get record "device_hash" PyNone = Ok (PyStr ("python-client-" ++ digits)) /\
     String.length digits = 8%nat /\
     forallb lower_hex (list_ascii_of_string digits) = true) /\
  (let! t := py_get record "token" PyNone in py_get t "access" PyNone) = Ok access /\
  (let! t := py_get record "token" PyNone in py_get t "refresh" PyNone) = Ok refresh /\
  (let! u := py_get record "fold_user" PyNone in py_get u "uuid" PyNone) = Ok uuid.
Proof.
  intros Hfour record.
  refine (conj _ (conj eq_refl (conj eq_refl eq_refl))).
  exists (hex (urandom R 4)).
  refine (conj eq_refl (conj _ (hex_lower _))).
  rewrite hex_length, Hfour. reflexivity.
Qed.

End Auth.

(** ** Holdings API *)

Section HoldingsApi.

Variable R : runtime.

Lemma stored_holdings_hold (holdings : list Holding) :
  exists items, stored_holdings holdings = PyList items /\ Forall2 holds_holding holdings items.
Proof.
  unfold stored_holdings. eexists. split; [reflexivity|].
  induction holdings as [|h rest IH]; constructor; [split; reflexivity|exact IH].
Qed.

(** A [POST /api/holdings] that returns answers [updated], and has
    replaced the stored list.  After two posts [GET /api/holdings]
    returns one record for each holding of the second, in the order
    posted, with its [scheme_code] and its [units] (when [json] reads
    back what it wrote for them), and the disk is as if the first post
    had never been made.  The token file, the database and the log are
    as they were. *)
Theorem set_holdings_api_replaces (w : world) (first second : list Holding) (v : pyval) :
  json_loads R (json_dumps R (stored_holdings second)) = Some (stored_holdings second) ->
  let once := snd (set_holdings_api R first w) in
  let twice := snd (set_holdings_api R second once) in
  fst (set_holdings_api R second once) = Ok v ->
  v = PyDict [("status", PyStr "updated")] /\
  (exists items,
     fst (get_holdings_api R twice) = Ok (PyList items) /\
     Forall2 holds_holding second items) /\
  twice = snd (set_holdings_api R second w) /\
  unfold_config_yaml (files twice) = unfold_config_yaml (files w) /\
  db_sqlite (files twice) = db_sqlite (files w) /\
  log twice = log w.
Proof.
  intros Hrt once twice Hok.
  refine (conj _ (conj _ (conj eq_refl (conj eq_refl (conj eq_refl eq_refl))))).
  - cbn in Hok. congruence.
  - destruct (stored_holdings_hold second) as (items & Hitems & Hhold).
    exists items. split; [|exact Hhold].
    subst twice. rewrite <- Hitems. apply set_then_get_holdings. exact Hrt.
Qed.

End HoldingsApi.

(** ** Transactions, further *)

Section TransactionsFurther.

Variable R : runtime.

(** With nothing at [DB_PATH], what the opportunistic run of the tool
    leaves there is read in the same call, whatever status the tool exited
    with.  A database whose table has the seven columns gives
    [min(50, n)] of its [n] rows: the first 50 of them in some order by
    timestamp, latest first, one record for each, holding under the seven
    keys the columns of its row.  The log has gained the one run. *)
Theorem get_transactions_reads_what_sync_made
        (w : world) (code : Z) (after : disk) (stored : list row) :
  total_preorder (sqlite_le R) ->
  db_sqlite (files w) = DbAbsent ->
  unfold_binary R unfold_argv (files w) = (Exited code, after) ->
  db_sqlite after = Db (Rows stored) ->
  exists sorted out,
    get_transactions R w = (Ok (PyList out), mkWorld after (log w ++ [Ran unfold_argv])) /\
    Permutation sorted stored /\
    StronglySorted (later_first R) sorted /\
    Forall2 holds_row (firstn 50 sorted) out /\
    Forall has_transaction_shape out /\
    StronglySorted (later_record_first R) out /\
    List.length out = Nat.min 50 (List.length stored).
Proof.
  intros Hle Hdb Hrun Hafter.
  exists (order_by_timestamp_desc R stored),
         (List.map transaction_of_row (firstn 50 (order_by_timestamp_desc R stored))).
  rewrite (get_transactions_absent R w Hdb). cbv zeta.
  rewrite subprocess_run_cases, Hrun. cbn [snd files]. rewrite Hafter.
  unfold read_recent. cbn [files]. rewrite Hafter.
  refine (conj eq_refl (conj _ (conj _ (conj _ (conj _ (conj _ _)))))).
  - apply order_by_timestamp_desc_perm.
  - apply order_by_timestamp_desc_sorted, Hle.
  - apply transactions_hold_rows.
  - apply transactions_have_shape.
  - apply transactions_later_first, firstn_sorted, order_by_timestamp_desc_sorted, Hle.
  - rewrite length_map, length_firstn.
    rewrite (Permutation_length (order_by_timestamp_desc_perm R stored)). reflexivity.
Qed.

End TransactionsFurther.

(** ** Portfolio, further *)

Section PortfolioFurther.

Variable R : runtime.

(** [get_portfolio] is the loop over what iterating the loaded value
    gives, when it can be iterated. *)
Lemma get_portfolio_iter (w : world) (v : pyval) :
  fst (load_holdings R w) = Ok v ->
  get_portfolio R w =
  match py_iter v with
  | Raise e => (Raise e, w)
  | Ok items =>
      match for_each_holding R items (w, mkLocals [] (PyInt 0)) with
      | (Ok _, s) =>
          (let! total := py_round2 (total_value (snd s)) in
           Ok (PyDict [("portfolio", PyList (portfolio (snd s))); ("total_value", total)]),
           fst s)
      | (Raise e, s) => (Raise e, fst s)
      end
  end.
Proof.
  intros Hload. destruct (load_holdings_returns R w) as [v' Hv].
  rewrite Hv in Hload. cbn [fst] in Hload. inversion Hload; subst v'; clear Hload.
  unfold get_portfolio. run. rewrite Hv. run.
  destruct (py_iter v) as [items|e]; run; [|reflexivity].
  destruct (for_each_holding R items (w, mkLocals [] (PyInt 0))) as [[[]|e] s]; run;
    [|reflexivity].
  destruct (py_round2 (total_value (snd s))); reflexivity.
Qed.

(** A holdings file that parses to something that is no list: a number,
    a boolean or [null] cannot be iterated, a mapping with an entry or a
    text with a character is iterated and its first element has no
    [scheme_code], so [get_portfolio] raises [TypeError]; the empty
    mapping and the empty text give the empty portfolio. *)
Theorem get_portfolio_of_no_list (w : world) (v : pyval) :
  fst (load_holdings R w) = Ok v ->
  (v = PyNone \/ (exists b, v = PyBool b) \/ (exists i, v = PyInt i) \/
   (exists x, v = PyFloat x) \/
   (exists key x rest, v = PyDict ((key, x) :: rest)) \/
   (exists c s, v = PyStr (String c s)) ->
   fst (get_portfolio R w) = Raise TypeError) /\
  (v = PyDict [] \/ v = PyStr EmptyString ->
   fst (get_portfolio R w) =
   Ok (PyDict [("portfolio", PyList []); ("total_value", PyInt 0)])).
Proof.
  intros Hload. rewrite (get_portfolio_iter w v Hload). split.
  - intros [-> | [[b ->] | [[i ->] | [[x ->] | [(key & x & rest & ->) | (c & s & ->)]]]]];
      reflexivity.
  - intros [-> | ->]; reflexivity.
Qed.

(** Pricing a holding when the feed does not answer: the request, the
    exception, no change to the locals. *)
Lemma price_holding_unanswered (code : pyval) (units : float) (s : world * locals) :
  requests_get R (feed_url R code) = NoReply ->
  price_holding R code units s = (Raise RequestException, (looked_up R (fst s) code, snd s)).
Proof.
  intros Hno. unfold price_holding, http_get, looked_up.
  change ("https://api.mfapi.in/mf/" ++ fmt R code)%string with (feed_url R code).
  run. rewrite Hno. run. reflexivity.
Qed.

Lemma for_each_holding_unanswered (hs : list pyval) :
  forall (w : world) (l : locals),
    forallb (well_formed_holding R) hs = true ->
    (forall h code units, In h hs -> holding_fields R h = Some (code, units) ->
                          requests_get R (feed_url R code) = NoReply) ->
    for_each_holding R hs (w, l) =
    (Ok tt, (mkWorld (files w) (log w ++ flat_map (unanswered R) hs), l)).
Proof.
  induction hs as [|h rest IH]; intros w l Hwf Hno.
  - cbn. rewrite app_nil_r. destruct w; reflexivity.
  - cbn [forallb] in Hwf. apply andb_true_iff in Hwf. destruct Hwf as [Hh Hrest].
    unfold well_formed_holding in Hh.
    destruct (holding_fields R h) as [[code units]|] eqn:Hf; [|discriminate].
    destruct (holding_fields_some R h code units Hf) as [Hcode Hunits].
    cbn [for_each_holding flat_map]. unfold unanswered at 1. rewrite Hf.
    unfold bind at 1. unfold lift at 1. rewrite Hcode.
    unfold bind at 1. unfold lift at 1. rewrite Hunits.
    unfold bind at 1. unfold try_except.
    rewrite (price_holding_unanswered code units (w, l)
               (Hno h code units (or_introl eq_refl) Hf)).
    unfold in_world, emit, modify, looked_up. cbn [fst snd files log].
    rewrite IH; [|exact Hrest|intros h' c u Hin; apply Hno; right; exact Hin].
    cbn [files log]. rewrite <- !app_assoc. reflexivity.
Qed.

(** With the price feed out of reach, valuation of well-formed holdings
    does not fail: the portfolio is empty, the total is the integer 0, no
    file changes, and the log holds, for each holding in turn, its request
    and the diagnostic that names its scheme. *)
Theorem get_portfolio_feed_unreachable (w : world) (hs : list pyval) :
  fst (load_holdings R w) = Ok (PyList hs) ->
  forallb (well_formed_holding R) hs = true ->
  (forall h code units, In h hs -> holding_fields R h = Some (code, units) ->
                        requests_get R (feed_url R code) = NoReply) ->
  get_portfolio R w =
  (Ok (PyDict [("portfolio", PyList []); ("total_value", PyInt 0)]),
   mkWorld (files w) (log w ++ flat_map (unanswered R) hs)).
Proof.
  intros Hload Hwf Hno. rewrite (get_portfolio_iter w (PyList hs) Hload).
  cbn [py_iter]. rewrite (for_each_holding_unanswered hs w _ Hwf Hno). reflexivity.
Qed.

(** The loop writes no file, whether it ends or raises. *)
Lemma for_each_holding_files (hs : list pyval) :
  forall (s : world * locals),
    files (fst (snd (for_each_holding R hs s))) = files (fst s).
Proof.
  induction hs as [|h rest IH]; intros [w l]; [reflexivity|].
  cbn [for_each_holding].
  unfold bind at 1. unfold lift at 1.
  destruct (py_getitem h (PyStr "scheme_code")) as [code|e]; [|reflexivity].
  unfold bind at 1. unfold lift at 1.
  destruct (let! u := py_getitem h (PyStr "units") in py_float R u) as [units|e];
    [|reflexivity].
  unfold bind at 1. unfold try_except.
  destruct (price_holding_asks_once R code units w l) as (r & l' & Hr). rewrite Hr.
  destruct r as [[]|e].
  - rewrite IH. reflexivity.
  - unfold in_world, emit, modify. cbn [fst snd]. rewrite IH. reflexivity.
Qed.

(** Three of the [GET] endpoints only read: whatever is on disk and
    whatever they return or raise, [/api/holdings], [/api/fold/status] and
    [/api/portfolio] leave every file as it was. *)
Theorem get_endpoints_write_nothing (w : world) :
  files (snd (get_holdings_api R w)) = files w /\
  files (snd (fold_status R w)) = files w /\
  files (snd (get_portfolio R w)) = files w.
Proof.
  refine (conj _ (conj _ _)).
  - unfold get_holdings_api. destruct (load_holdings_returns R w) as [v ->]. reflexivity.
  - unfold fold_status, bind. destruct (get_unfold_token_returns R w) as [v ->]. reflexivity.
  - destruct (load_holdings_returns R w) as [v Hv].
    rewrite (get_portfolio_iter w v) by (rewrite Hv; reflexivity).
    destruct (py_iter v) as [items|e]; [|reflexivity].
    pose proof (for_each_holding_files items (w, mkLocals [] (PyInt 0))) as Hfiles.
    destruct (for_each_holding R items (w, mkLocals [] (PyInt 0))) as [[[]|e] s];
      exact Hfiles.
Qed.

(** *** The status of a feed reply *)

Variable recode : string -> Z -> Z.

Lemma price_holding_any_status (code : pyval) (units : float) (s : world * locals) :
  price_holding (with_statuses recode R) code units s = price_holding R code units s.
Proof.
  unfold price_holding, http_get, response_json, json_load.
  change (fmt (with_statuses recode R) code) with (fmt R code).
  change (json_loads (with_statuses recode R)) with (json_loads R).
  change (py_float (with_statuses recode R)) with (py_float R).
  change (requests_get (with_statuses recode R)
            ("https://api.mfapi.in/mf/" ++ fmt R code)%string)
    with (match requests_get R ("https://api.mfapi.in/mf/" ++ fmt R code)%string with
          | NoReply => NoReply
          | Reply c text => Reply (recode ("https://api.mfapi.in/mf/" ++ fmt R code)%string c)
                                  text
          end).
  run.
  destruct (requests_get R ("https://api.mfapi.in/mf/" ++ fmt R code)%string); reflexivity.
Qed.

Lemma bind_cong {S A B : Type} (m m' : M S A) (k k' : A -> M S B) (s : S) :
  m s = m' s -> (forall a s', k a s' = k' a s') -> bind m k s = bind m' k' s.
Proof.
  intros Hm Hk. unfold bind. rewrite Hm. destruct (m' s) as [[a|e] s']; [apply Hk|reflexivity].
Qed.

Lemma for_each_holding_any_status (hs : list pyval) :
  forall (s : world * locals),
    for_each_holding (with_statuses recode R) hs s = for_each_holding R hs s.
Proof.
  induction hs as [|h rest IH]; intros s; [reflexivity|].
  cbn [for_each_holding].
  change (py_float (with_statuses recode R)) with (py_float R).
  apply bind_cong; [reflexivity|]. intros code s1.
  apply bind_cong; [reflexivity|]. intros units s2.
  apply bind_cong; [|intros _ s3; apply IH].
  unfold try_except. rewrite price_holding_any_status. reflexivity.
Qed.

(** [get_portfolio] never looks at the status of a feed reply: with the
    statuses changed in any way, bodies unchanged, it returns the same
    value and leaves the same world.  A reply is priced on its body alone,
    an error page with a priced body included. *)
Theorem get_portfolio_ignores_status (w : world) :
  get_portfolio (with_statuses recode R) w = get_portfolio R w.
Proof.
  unfold get_portfolio.
  change (load_holdings (with_statuses recode R)) with (load_holdings R).
  match goal with
  | |- (let (_, _) := ?a in _) = (let (_, _) := ?b in _) =>
      assert (Hrun : a = b); [|rewrite Hrun; reflexivity]
  end.
  apply bind_cong; [reflexivity|]. intros holdings s1.
  apply bind_cong; [reflexivity|]. intros items s2.
  apply bind_cong; [apply for_each_holding_any_status|reflexivity].
Qed.

End PortfolioFurther.

(** ** The recorded session, run *)

Module SessionRuns.

Import Session.

Lemma ascii_compare_trans (a b c : ascii) (o : comparison) :
  Ascii.compare a b = o -> Ascii.compare b c = o -> Ascii.compare a c = o.
Proof.
  unfold Ascii.compare. destruct o; intros H1 H2.
  - apply N.compare_eq in H1. apply N.compare_eq in H2. rewrite H1, H2. apply N.compare_refl.
  - rewrite N.compare_lt_iff in *. lia.
  - rewrite N.compare_gt_iff in *. lia.
Qed.

Lemma string_leb_trans (s t u : string) :
  String.leb s t = true -> String.leb t u = true -> String.leb s u = true.
Proof.
  unfold String.leb. revert t u.
  induction s as [|a s IH]; intros [|b t] [|c u]; cbn [String.compare]; try (intros; congruence).
  destruct (Ascii.compare a b) eqn:Eab; destruct (Ascii.compare b c) eqn:Ebc;
    try (intros; congruence).
  - rewrite (ascii_compare_trans a b c Eq Eab Ebc). apply IH.
  - apply Ascii.compare_eq_iff in Eab. subst b. rewrite Ebc. auto.
  - apply Ascii.compare_eq_iff in Ebc. subst c. rewrite Eab. auto.
  - rewrite (ascii_compare_trans a b c Lt Eab Ebc). auto.
Qed.

Lemma key_le_total (a b : Z * Z * string) : key_le a b = true \/ key_le b a = true.
Proof.
  destruct a as [[ca ia] sa], b as [[cb ib] sb]. unfold key_le.
  destruct (Z.compare_spec ca cb) as [Hc|Hc|Hc].
  - subst cb. rewrite Z.ltb_irrefl, Z.eqb_refl. cbn [orb andb].
    destruct (Z.compare_spec ia ib) as [Hi|Hi|Hi].
    + subst ib. rewrite Z.ltb_irrefl, Z.eqb_refl. cbn [orb andb]. apply String.leb_total.
    + left. apply Z.ltb_lt in Hi. rewrite Hi. reflexivity.
    + right. apply Z.ltb_lt in Hi. rewrite Hi. reflexivity.
  - left. apply Z.ltb_lt in Hc. rewrite Hc. reflexivity.
  - right. apply Z.ltb_lt in Hc. rewrite Hc. reflexivity.
Qed.

Lemma key_le_trans (a b c : Z * Z * string) :
  key_le a b = true -> key_le b c = true -> key_le a c = true.
Proof.
  destruct a as [[ca ia] sa], b as [[cb ib] sb], c as [[cc ic] sc]. unfold key_le.
  rewrite !orb_true_iff, !andb_true_iff, !orb_true_iff, !andb_true_iff,
    !Z.ltb_lt, !Z.eqb_eq.
  intros [H1|[H1 [H1'|[H1' H1'']]]] [H2|[H2 [H2'|[H2' H2'']]]];
    try (left; lia); right; (split; [lia|]); try (left; lia).
  right. split; [lia|]. eapply string_leb_trans; eassumption.
Qed.

Lemma session_le_total_preorder : total_preorder (sqlite_le session).
Proof.
  split.
  - intros a b. apply key_le_total.
  - intros a b c. apply key_le_trans.
Qed.


(** *** Holdings Store *)

(** Saving A and B over a file of garbage, then loading. *)
Lemma save_holdings_then_load_witness :
  load_holdings session (snd (save_holdings session holdings_AB with_garbage)) =
  (Ok holdings_AB, snd (save_holdings session holdings_AB with_garbage)).
Proof.
  apply (save_holdings_then_load session with_garbage holdings_AB).
  vm_compute. reflexivity.
Defined.

(** Loading with no file, and with a file that is no JSON. *)
Lemma load_holdings_fail_open_witness :
  load_holdings session fresh = (Ok (PyList []), fresh) /\
  load_holdings session with_garbage = (Ok (PyList []), with_garbage).
Proof.
  split.
  - apply (load_holdings_fail_open session fresh). reflexivity.
  - apply (proj2 (proj2 (load_holdings_fail_open session with_garbage)) "{"); reflexivity.
Defined.

(** *** Token State *)

(** Not logged in on a fresh disk; logged in once the tokens are saved. *)
Lemma logged_in_after_save_witness :
  fst (fold_status session fresh) = Ok (PyDict [("logged_in", PyBool false)]) /\
  fst (fold_status session
         (snd (save_unfold_config session (PyStr "acc-1") (PyStr "ref-1") (PyStr "u-1") fresh)))
  = Ok (PyDict [("logged_in", PyBool true)]).
Proof.
  split.
  - apply (logged_in_after_save session fresh "acc-1" "ref-1" (PyStr "u-1")). reflexivity.
  - apply (proj2 (logged_in_after_save session fresh "acc-1" "ref-1" (PyStr "u-1"))
                 config_loaded); vm_compute; reflexivity.
Defined.


(** *** Sync Invoker and Transaction Reader *)

(** Something at [DB_PATH] that cannot be opened. *)
Lemma get_transactions_raises_when_connect_fails_witness :
  get_transactions session blocked = (Raise OperationalError, blocked).
Proof.
  apply (get_transactions_raises_when_connect_fails session blocked). reflexivity.
Defined.

(** Sixty stored rows: fifty come back, the latest first. *)
Lemma get_transactions_recent_witness :
  exists rows out,
    fst (get_transactions session synced) = Ok (PyList out) /\
    (List.length out <= 50)%nat /\
    Forall has_transaction_shape out /\
    Forall2 holds_row rows out /\
    StronglySorted (later_record_first session) out /\
    StronglySorted (later_first session) rows /\
    (forall stored, Rows sixty_rows = Rows stored ->
       exists sorted,
         Permutation sorted stored /\
         StronglySorted (later_first session) sorted /\
         rows = firstn 50 sorted).
Proof.
  apply (get_transactions_recent session synced (Rows sixty_rows)).
  - exact session_le_total_preorder.
  - reflexivity.
  - discriminate.
Defined.

(** Not logged in: the tool exits with 1; the sync endpoint reports it,
    the transaction endpoint passes over it. *)
Lemma sync_transactions_reports_witness :
  fst (sync_transactions session fresh) =
  Raise (HTTPException 500 "Failed to sync. Ensure you are logged in." None) /\
  fst (get_transactions session fresh) = Ok (PyList []).
Proof.
  split.
  - apply (proj1 (proj2 (sync_transactions_reports session fresh)) 1).
    + reflexivity.
    + discriminate.
  - apply (proj2 (proj2 (proj2 (sync_transactions_reports session fresh)))).
    + discriminate.
    + reflexivity.
    + reflexivity.
Defined.

(** *** Portfolio Valuator *)

(** Two units of A, quoted at 10, and three of B, whose lookup gets no
    reply: A is listed at 20.0, the total is 20.0, B is absent. *)
Lemma get_portfolio_values_priced_holdings_witness :
  fst (get_portfolio session with_holdings) =
  Ok (PyDict [ ("portfolio",
                PyList [PyDict [ ("scheme_code", PyStr "A");
                                 ("scheme_name", PyStr "Fund A");
                                 ("units", PyFloat 2);
                                 ("nav", PyFloat 10);
                                 ("current_value", PyFloat 20) ]]);
               ("total_value", PyFloat 20) ]).
Proof.
  destruct (get_portfolio_values_priced_holdings session with_holdings [holding_A; holding_B])
    as (total & Hres & Hsum & _).
  - vm_compute. reflexivity.
  - vm_compute. reflexivity.
  - vm_compute in Hsum. injection Hsum as <-. exact Hres.
Defined.

(** C2, refuted as stated: on a fresh disk the holdings list is empty and
    the total that comes back is not the float 0.0. *)
Lemma get_portfolio_of_nothing_is_not_float :
  fst (load_holdings session fresh) = Ok (PyList []) /\
  fst (get_portfolio session fresh) <>
  Ok (PyDict [("portfolio", PyList []); ("total_value", PyFloat 0)]).
Proof.
  split; [reflexivity|]. vm_compute. discriminate.
Qed.

Lemma get_portfolio_of_nothing_witness :
  fst (get_portfolio session fresh) =
  Ok (PyDict [("portfolio", PyList []); ("total_value", PyInt 0)]).
Proof.
  apply (get_portfolio_of_nothing session fresh). reflexivity.
Defined.

(** A list of strings, and units that are a word. *)
Lemma get_portfolio_needs_well_formed_holdings_witness :
  fst (get_portfolio session with_names) = Raise TypeError /\
  fst (get_portfolio session with_words) = Raise ValueError.
Proof.
  split.
  - apply (proj1 (proj2 (proj2 (get_portfolio_needs_well_formed_holdings
                                  session with_names [PyStr "A"; PyStr "B"] eq_refl)))
                 "A" [PyStr "B"]).
    reflexivity.
  - apply (proj2 (proj2 (proj2 (get_portfolio_needs_well_formed_holdings
                                  session with_words
                                  [PyDict [("scheme_code", PyStr "A"); ("units", PyStr "lots")]]
                                  eq_refl)))
                 (PyStr "A") "lots" []); reflexivity.
Defined.

(** *** Further runs *)


Lemma set_then_get_holdings_witness :
  fst (get_holdings_api session
         (snd (set_holdings_api session [mkHolding "A" 2; mkHolding "B" 3] fresh)))
  = Ok holdings_AB.
Proof.
  apply (set_then_get_holdings session fresh [mkHolding "A" 2; mkHolding "B" 3]).
  vm_compute. reflexivity.
Defined.

Lemma get_portfolio_after_set_holdings_witness :
  exists v,
    fst (get_portfolio session
           (snd (set_holdings_api session [mkHolding "A" 2; mkHolding "B" 3] fresh))) = Ok v.
Proof.
  apply (get_portfolio_after_set_holdings session fresh [mkHolding "A" 2; mkHolding "B" 3]).
  vm_compute. reflexivity.
Defined.

Lemma get_portfolio_looks_up_each_once_witness :
  lookups (log (snd (get_portfolio session with_holdings))) =
  ["https://api.mfapi.in/mf/A"; "https://api.mfapi.in/mf/B"].
Proof.
  apply (get_portfolio_looks_up_each_once session with_holdings [holding_A; holding_B]);
    vm_compute; reflexivity.
Defined.

End SessionRuns.

(** ** The recorded session, run further *)

Module FurtherRuns.

Import Session.

(** 9999 and +919999 are one request. *)
Lemma country_code_makes_no_difference_witness :
  fold_login session (mkLoginRequest "+919999") fresh =
  fold_login session (mkLoginRequest "9999") fresh /\
  fold_verify session (mkVerifyRequest "+919999" "123456") fresh =
  fold_verify session (mkVerifyRequest "9999" "123456") fresh.
Proof.
  apply (proj1 (proj2 (proj2 (country_code_makes_no_difference session "9999" "123456" fresh)))).
  reflexivity.
Defined.

(** The identity service answers 200: the code is on its way. *)
Lemma fold_login_reports_witness :
  fst (fold_login session (mkLoginRequest "9999") fresh) =
  Ok (PyDict [("status", PyStr "otp_sent")]).
Proof.
  apply (proj2 (proj1 (fold_login_reports session (mkLoginRequest "9999") fresh))).
  exists 200, "{}". split; reflexivity.
Defined.

(** The right code, and a verification that returned: logged in from
    then on. *)
Lemma fold_verify_logs_in_witness :
  fst (fold_verify session (mkVerifyRequest "9999" "123456") fresh) =
  Ok (PyDict [("status", PyStr "success")]) /\
  fst (fold_status session
         (snd (fold_verify session (mkVerifyRequest "9999" "123456") fresh))) =
  Ok (PyDict [("logged_in", PyBool true)]).
Proof.
  assert (Hok : fst (fold_verify session (mkVerifyRequest "9999" "123456") fresh) =
                Ok (PyDict [("status", PyStr "success")])) by (vm_compute; reflexivity).
  split; [exact Hok|].
  apply (fold_verify_logs_in session (mkVerifyRequest "9999" "123456") fresh
           200 verify_ok_text verify_ok
           (PyDict [ ("access_token", PyStr "acc-1");
                     ("refresh_token", PyStr "ref-1");
                     ("user_meta", PyDict [("uuid", PyStr "u-1")]) ])
           (PyStr "acc-1") (PyStr "ref-1") (PyDict [("uuid", PyStr "u-1")]) (PyStr "u-1")
           config_loaded (PyDict [("status", PyStr "success")]));
    first [exact Hok | vm_compute; reflexivity].
Defined.

(** The session's four bytes give eight digits. *)
Lemma device_hash_shape_witness :
  exists digits,
    py_get (unfold_config session (PyStr "acc-1") (PyStr "ref-1") (PyStr "u-1"))
           "device_hash" PyNone = Ok (PyStr ("python-client-" ++ digits)) /\
    String.length digits = 8%nat /\
    forallb lower_hex (list_ascii_of_string digits) = true.
Proof.
  apply (proj1 (device_hash_shape session (PyStr "acc-1") (PyStr "ref-1") (PyStr "u-1")
                  eq_refl)).
Defined.

(** A token file that is no YAML: no token, not logged in. *)
Lemma get_unfold_token_fail_open_witness :
  get_unfold_token session with_bad_config = (Ok PyNone, with_bad_config).
Proof.
  apply (proj1 (proj2 (proj2 (proj2 (get_unfold_token_fail_open session with_bad_config)))
                      "{" eq_refl)).
  reflexivity.
Defined.

(** Posting B alone, then A and B: A and B are what is stored. *)
Lemma set_holdings_api_replaces_witness :
  exists items,
    fst (get_holdings_api session
           (snd (set_holdings_api session [mkHolding "A" 2; mkHolding "B" 3]
                   (snd (set_holdings_api session [mkHolding "B" 3] fresh))))) =
    Ok (PyList items) /\
    Forall2 holds_holding [mkHolding "A" 2; mkHolding "B" 3] items.
Proof.
  apply (set_holdings_api_replaces session fresh
           [mkHolding "B" 3] [mkHolding "A" 2; mkHolding "B" 3]
           (PyDict [("status", PyStr "updated")])).
  - vm_compute. reflexivity.
  - reflexivity.
Defined.

(** Logged in with no database yet: the tool makes it, and the same call
    returns fifty records. *)
Lemma get_transactions_reads_what_sync_made_witness :
  exists sorted out,
    get_transactions session logged_in =
    (Ok (PyList out),
     mkWorld (mkDisk None (Some config_text) (Db (Rows sixty_rows))) [Ran unfold_argv]) /\
    Permutation sorted sixty_rows /\
    StronglySorted (later_first session) sorted /\
    Forall2 holds_row (firstn 50 sorted) out /\
    Forall has_transaction_shape out /\
    StronglySorted (later_record_first session) out /\
    List.length out = Nat.min 50 (List.length sixty_rows).
Proof.
  apply (get_transactions_reads_what_sync_made session logged_in 0
           (mkDisk None (Some config_text) (Db (Rows sixty_rows))) sixty_rows).
  - exact SessionRuns.session_le_total_preorder.
  - reflexivity.
  - reflexivity.
  - reflexivity.
Defined.

(** Holdings files that hold [null], an object, and the empty object. *)
Lemma get_portfolio_of_no_list_witness :
  fst (get_portfolio lenient with_null) = Raise TypeError /\
  fst (get_portfolio lenient with_object) = Raise TypeError /\
  fst (get_portfolio lenient with_empty_object) =
  Ok (PyDict [("portfolio", PyList []); ("total_value", PyInt 0)]).
Proof.
  refine (conj _ (conj _ _)).
  - apply (proj1 (get_portfolio_of_no_list lenient with_null PyNone eq_refl)).
    left. reflexivity.
  - apply (proj1 (get_portfolio_of_no_list lenient with_object
                    (PyDict [("A", PyFloat 2)]) eq_refl)).
    do 4 right. left. do 3 eexists. reflexivity.
  - apply (proj2 (get_portfolio_of_no_list lenient with_empty_object (PyDict []) eq_refl)).
    left. reflexivity.
Defined.

(** A and B saved, the feed out of reach: nothing priced, two requests,
    two diagnostics. *)
Lemma get_portfolio_feed_unreachable_witness :
  get_portfolio offline with_holdings =
  (Ok (PyDict [("portfolio", PyList []); ("total_value", PyInt 0)]),
   mkWorld (files with_holdings)
           [ Got "https://api.mfapi.in/mf/A"; PrintedFetchError (PyStr "A") RequestException;
             Got "https://api.mfapi.in/mf/B"; PrintedFetchError (PyStr "B") RequestException ]).
Proof.
  apply (get_portfolio_feed_unreachable offline with_holdings [holding_A; holding_B]).
  - vm_compute. reflexivity.
  - vm_compute. reflexivity.
  - intros h code units _ _. reflexivity.
Defined.

End FurtherRuns.
